(** * ircbot: the account-creation IRC bot (ircbot.py) and its lab plugin

    A shallow embedding of [CreateBot.on_pubmsg], [CreateBot.handle_command],
    [bot_announce] and [celery_listener] of [ircbot.py], and of the listener
    registration used by [ircbot/plugin/lab.py].

    Python text is modelled by [string]; every character is a code point
    below 256.  The IRC connection, the task queue, the ticket tracker and
    the event receiver are collaborators outside the repository: what the
    bot asks of them is recorded as a trace of [Effect]s, and what they
    answer is read from a [World]. *)

From Stdlib Require Import Ascii String List NArith ZArith Lia Bool.
From Stdlib Require Import DecimalString DecimalPos DecimalN.
From stdpp Require Import base gmap strings sorting.
Import ListNotations.

Local Open Scope string_scope.
Local Open Scope list_scope.

(** ** Python string operations used by the bot *)

Module PyStr.

(** [s.count(c)] for a one-character [c]. *)
Fixpoint count (c : ascii) (s : string) : nat :=
  match s with
  | EmptyString => 0
  | String a s' => (if Ascii.eqb a c then 1 else 0) + count c s'
  end.

(** [s.split(sep)] for a one-character [sep]: every separator cuts, empty
    pieces are kept, and the result is never empty. *)
Fixpoint split (sep : ascii) (s : string) : list string :=
  match s with
  | EmptyString => [EmptyString]
  | String a s' =>
      if Ascii.eqb a sep then EmptyString :: split sep s'
      else match split sep s' with
           | w :: ws => String a w :: ws
           | [] => [String a EmptyString]
           end
  end.

(** [s.startswith(p)]. *)
Definition startswith (p s : string) : bool := String.prefix p s.

(** [s[n:]]. *)
Fixpoint drop (n : nat) (s : string) : string :=
  match n, s with
  | O, _ => s
  | S _, EmptyString => EmptyString
  | S n', String _ s' => drop n' s'
  end.

(** [c.isspace()] on code points below 256. *)
Definition isspace (c : ascii) : bool :=
  let n := nat_of_ascii c in
  (((9 <=? n) && (n <=? 13)) || ((28 <=? n) && (n <=? 32))
   || (n =? 133) || (n =? 160))%nat.

Fixpoint lstrip (s : string) : string :=
  match s with
  | EmptyString => EmptyString
  | String a s' => if isspace a then lstrip s' else s
  end.

Fixpoint rstrip (s : string) : string :=
  match s with
  | EmptyString => EmptyString
  | String a s' =>
      match rstrip s' with
      | EmptyString => if isspace a then EmptyString else String a EmptyString
      | r => String a r
      end
  end.

(** [s.strip()]. *)
Definition strip (s : string) : string := rstrip (lstrip s).

(** [sep.join(l)]. *)
Definition join (sep : string) (l : list string) : string :=
  String.concat sep l.

(** The character class [[0-9]]. *)
Definition isdigit (c : ascii) : bool :=
  let n := nat_of_ascii c in ((48 <=? n) && (n <=? 57))%nat.

(** [int(s)] on a string of decimal digits. *)
Definition int (s : string) : N :=
  (fix go (acc : N) (s : string) : N :=
     match s with
     | EmptyString => acc
     | String a s' => go (acc * 10 + (N_of_ascii a - 48))%N s'
     end) 0%N s.

End PyStr.

(** ** The regular expression [rt#([0-9]+)] *)

Module Re.

(** The longest run of digits at the head of [s], and what follows it. *)
Fixpoint span_digits (s : string) : string * string :=
  match s with
  | EmptyString => (EmptyString, EmptyString)
  | String a s' =>
      if PyStr.isdigit a
      then let '(ds, rest) := span_digits s' in (String a ds, rest)
      else (EmptyString, s)
  end.

(** A match of [rt#([0-9]+)] anchored at the head of [s]: the captured
    digits (greedy, at least one) and the text after the match. *)
Definition match_ticket (s : string) : option (string * string) :=
  match s with
  | String "r" (String "t" (String "#" s')) =>
      match span_digits s' with
      | (EmptyString, _) => None
      | (ds, rest) => Some (ds, rest)
      end
  | _ => None
  end.

(** The scan of [re.findall]: leftmost matches, left to right, the next
    search starting where the last match ended. *)
Fixpoint findall_from (fuel : nat) (s : string) : list string :=
  match fuel with
  | O => []
  | S fuel' =>
      match s with
      | EmptyString => []
      | String _ s' =>
          match match_ticket s with
          | Some (ds, rest) => ds :: findall_from fuel' rest
          | None => findall_from fuel' s'
          end
      end
  end.

(** [re.findall(r'rt#([0-9]+)', msg)]. *)
Definition findall (msg : string) : list string :=
  findall_from (String.length msg) msg.

(** The number of places of [s] at which a ticket reference starts. *)
Fixpoint occurrences (s : string) : nat :=
  match s with
  | EmptyString => 0
  | String _ s' =>
      match match_ticket s with
      | Some _ => S (occurrences s')
      | None => occurrences s'
      end
  end.

End Re.

(** ** Effects, exceptions and the monad of the handlers *)

(** What the bot asks of its collaborators. *)
Inductive Effect : Type :=
| JoinChannel (channel : string)             (* conn.join(channel) *)
| Privmsg (target text : string)             (* conn.privmsg(target, text) *)
| RtConnection (user password : string)      (* rt_connection(user=, password=) *)
| Delay (task : string) (args : list string) (* self.tasks.<task>.delay(args) *)
| Wait (task : string) (timeout : N)         (* task.wait(timeout=) *)
| Capture.                                   (* EventReceiver(...).capture(...) *)

(** The exceptions that can leave the modelled functions. *)
Inductive Exn : Type :=
| AssertionError
| ValueError
| IndexError
| TaskError          (* the exception of a failed task, re-raised by wait *)
| TransportError.    (* a connection error raised inside capture *)

Inductive Outcome (A : Type) : Type :=
| Returned (a : A)
| Raised (e : Exn).
Arguments Returned {A} a.
Arguments Raised {A} e.

(** A computation: the effects performed, in order, and how it ended. *)
Definition M (A : Type) : Type := list Effect * Outcome A.

Definition ret {A} (a : A) : M A := ([], Returned a).
Definition raise {A} (e : Exn) : M A := ([], Raised e).
Definition perform (e : Effect) : M unit := ([e], Returned tt).

Definition bind {A B} (m : M A) (k : A -> M B) : M B :=
  match m with
  | (tr, Returned a) => let '(tr', o) := k a in (tr ++ tr', o)
  | (tr, Raised e) => (tr, Raised e)
  end.

Notation "x <- m ;; k" := (bind m (fun x => k))
  (at level 100, m at next level, right associativity).
Notation "m ;; k" := (bind m (fun _ => k))
  (at level 100, right associativity).

(** [for x in l: body(x)]. *)
Fixpoint for_each {A} (l : list A) (body : A -> M unit) : M unit :=
  match l with
  | [] => ret tt
  | x :: l' => body x ;; for_each l' body
  end.

Definition effects {A} (m : M A) : list Effect := fst m.
Definition outcome {A} (m : M A) : Outcome A := snd m.

(** The texts handed to [conn.privmsg]: the Responder calls of a run. *)
Fixpoint privmsgs (tr : list Effect) : list (string * string) :=
  match tr with
  | [] => []
  | Privmsg target text :: tr' => (target, text) :: privmsgs tr'
  | _ :: tr' => privmsgs tr'
  end.

(** ** The collaborators' answers *)

(** How [task.wait(timeout=5)] ends. *)
Inductive WaitOutcome : Type :=
| WaitDone (result : list string)   (* task.result, the pending requests *)
| WaitTimedOut                      (* exceptions.TimeoutError *)
| WaitFailed.                       (* the task's own exception *)

Record World : Type := {
  (** [str(RtTicket.from_number(rt, n))], or [None] when the lookup raises
      AssertionError. *)
  from_number : N -> option string;
  (** The way the wait on [get_pending_requests] ends. *)
  pending_requests : WaitOutcome;
}.

(** ** The bot *)

(** [event] of [on_pubmsg]. *)
Record Event : Type := {
  source : string;
  target : string;
  arguments : list string;
}.

(** [self]: the password of the ticket tracker and, per joined channel, its
    operators ([self.channels[c].opers()]). *)
Record CreateBot : Type := {
  rt_password : string;
  channels : gmap string (list string);
}.

(** [respond] as [handle_command] receives it. *)
Definition Responder : Type := string -> bool -> M unit.

Section Bot.

(** [getpass.getuser()], read once when the module is loaded. *)
Variable getuser : string.

Definition IRC_NICKNAME : string :=
  if String.eqb getuser "nobody" then "create" else "create-" +:+ getuser.

Definition IRC_CHANNELS : list string :=
  if String.eqb getuser "nobody" then ["#rebuild"; "#atool"]
  else ["#" +:+ getuser].

Definition IRC_CHANNELS_ANNOUNCE : list string := ["#atool"].

Definition on_welcome : M unit :=
  for_each IRC_CHANNELS (fun channel => perform (JoinChannel channel)).

Variable world : World.

Definition handle_command (is_oper : bool) (command : string)
    (args : list string) (respond : Responder) : M unit :=
  (if is_oper then
     if String.eqb command "list" then
       perform (Delay "get_pending_requests" []) ;;
       perform (Wait "get_pending_requests" 5) ;;
       match pending_requests world with
       | WaitDone result =>
           match result with
           | _ :: _ => for_each result (fun request => respond request true)
           | [] => respond "no pending requests" true
           end
       | WaitTimedOut =>
           respond "timed out loading list of requests, sorry!" true
       | WaitFailed => raise TaskError
       end
     else if String.eqb command "approve" then
       match args with
       | [] => raise IndexError
       | user_name :: _ =>
           perform (Delay "approve_request" [user_name]) ;;
           respond ("approved " +:+ user_name
                    +:+ ", the account is being created") true
       end
     else if String.eqb command "reject" then
       match args with
       | [] => raise IndexError
       | user_name :: _ =>
           perform (Delay "reject_request" [user_name]) ;;
           respond ("rejected " +:+ user_name
                    +:+ ", better luck next time") true
       end
     else ret tt
   else ret tt) ;;
  if String.eqb command "thanks" then respond "you're welcome" true
  else if String.eqb command "thank" then
    let thing := PyStr.join " " args in
    if String.eqb thing "you" then respond "you're most welcome" true
    else respond ("thanks, " +:+ thing +:+ "!") false
  else ret tt.

(** The closure [respond] of [on_pubmsg]. *)
Definition respond (target user : string) : Responder :=
  fun msg ping =>
    perform (Privmsg target (if ping then user +:+ ": " +:+ msg else msg)).

(** The loop over the ticket numbers found in the message. *)
Definition ticket_loop (tickets : list string) (respond : Responder)
    : M unit :=
  for_each tickets (fun ticket =>
    match from_number world (PyStr.int ticket) with
    | Some t => respond t true
    | None => ret tt
    end).

(** [msg.startswith((IRC_NICKNAME + ' ', IRC_NICKNAME + ': '))]. *)
Definition mention_prefixed (msg : string) : bool :=
  PyStr.startswith (IRC_NICKNAME +:+ " ") msg
  || PyStr.startswith (IRC_NICKNAME +:+ ": ") msg.

(** [msg[len(IRC_NICKNAME) + 1:].strip().split(' ')]. *)
Definition command_words (msg : string) : list string :=
  PyStr.split " "
    (PyStr.strip (PyStr.drop (String.length IRC_NICKNAME + 1) msg)).

Definition on_pubmsg (self : CreateBot) (event : Event) : M unit :=
  match channels self !! target event with
  | None => ret tt
  | Some channel =>
      if negb (PyStr.count "!" (source event) =? 1)%nat
      then raise AssertionError
      else
        match PyStr.split "!" (source event) with
        | [user; _] =>
            if PyStr.startswith "create" user then ret tt
            else
              let is_oper := existsb (String.eqb user) channel in
              match arguments event with
              | [msg] =>
                  let respond := respond (target event) user in
                  match Re.findall msg with
                  | (_ :: _) as tickets =>
                      perform (RtConnection "create" (rt_password self)) ;;
                      ticket_loop tickets respond
                  | [] =>
                      if mention_prefixed msg then
                        match command_words msg with
                        | command :: args =>
                            handle_command is_oper command args respond
                        | [] => raise ValueError
                        end
                      else ret tt
                  end
              | _ => raise AssertionError
              end
        | _ => raise ValueError
        end
  end.

End Bot.

(** ** The event relay *)

(** [event['request']]. *)
Record Request : Type := {
  user_name : string;
  real_name : string;
  reasons : list string;
}.

(** An event of the task queue: [event['type']] and [event['request']]. *)
Record CeleryEvent : Type := {
  type : string;
  request : Request;
}.

(** How [recv.capture(limit=None, timeout=None)] ends: it returns, or a
    transport error is raised inside it. *)
Inductive CaptureEnd : Type :=
| CaptureReturns
| CaptureRaises.

(** One subscription to the event source: the events it delivers before it
    ends, and how it ends. *)
Record Subscription : Type := {
  delivered : list CeleryEvent;
  ending : CaptureEnd;
}.

(** Where [celery_listener] stands when no exception has left it: inside its
    [while True] loop. *)
Inductive Relay : Type :=
| Looping.

Section Relay.

Variable getuser : string.

Definition bot_announce (targets : list string) (message : string)
    : M unit :=
  for_each targets (fun target => perform (Privmsg target message)).

Definition on_account_created (event : CeleryEvent) : M unit :=
  let request := request event in
  bot_announce IRC_CHANNELS_ANNOUNCE
    (user_name request +:+ " created (" +:+ real_name request +:+ ")").

Definition on_account_submitted (event : CeleryEvent) : M unit :=
  let request := request event in
  bot_announce (IRC_CHANNELS getuser)
    (user_name request +:+ " (" +:+ real_name request
     +:+ ") needs approval: " +:+ PyStr.join ", " (reasons request)).

Definition on_account_approved (event : CeleryEvent) : M unit :=
  let request := request event in
  bot_announce IRC_CHANNELS_ANNOUNCE
    (user_name request +:+ " was approved, now pending creation.").

Definition on_account_rejected (event : CeleryEvent) : M unit :=
  let request := request event in
  bot_announce IRC_CHANNELS_ANNOUNCE
    (user_name request +:+ " was rejected.").

(** The [handlers] dictionary given to [EventReceiver]. *)
Definition handlers : gmap string (CeleryEvent -> M unit) :=
  <["ocflib.account_created" := on_account_created]>
  (<["ocflib.account_submitted" := on_account_submitted]>
  (<["ocflib.account_approved" := on_account_approved]>
  (<["ocflib.account_rejected" := on_account_rejected]> ∅))).

(** The receiver hands an event to the handler registered for its type;
    an event of another type is ignored. *)
Definition process (event : CeleryEvent) : M unit :=
  match handlers !! type event with
  | Some handler => handler event
  | None => ret tt
  end.

(** [recv.capture(limit=None, timeout=None)] over one subscription. *)
Definition capture (sub : Subscription) : M unit :=
  perform Capture ;;
  for_each (delivered sub) process ;;
  match ending sub with
  | CaptureReturns => ret tt
  | CaptureRaises => raise TransportError
  end.

(** [celery_listener] run against the subscriptions that have ended so
    far, one per iteration of its [while True] loop. *)
Fixpoint celery_listener (feed : list Subscription) : M Relay :=
  match feed with
  | [] => ret Looping
  | sub :: feed' => capture sub ;; celery_listener feed'
  end.

End Relay.

(** ** The listener registry of the plugins *)

Module Registry.

Section Listeners.

(** The handler functions, and the regular-expression search
    ([re.search(pattern, text) is not None]) of the host language. *)
Variable Handler : Type.
Variable search : string -> string -> bool.

(** Modelled from the spec: the [ListenerEntry] of the PatternRegistry,
    whose class is not among the sources; a (pattern, handler,
    mentionRequired) tuple. *)
Record ListenerEntry : Type := {
  pattern : string;
  handler : Handler;
  require_mention : bool;
}.

(** Modelled from the spec: the IncomingMessage as the registry sees it,
    its text and whether it is mention-prefixed. *)
Record Message : Type := {
  text : string;
  mention : bool;
}.

(** Modelled from the spec: [bot.listen], missing from the sources; the
    registry is an ordered, append-only sequence of entries. *)
Definition listen (listeners : list ListenerEntry) (pattern : string)
    (fn : Handler) (require_mention : bool) : list ListenerEntry :=
  listeners ++ [{| pattern := pattern; handler := fn;
                   require_mention := require_mention |}].

(** Modelled from the spec: an entry matches a message when its pattern
    is found in the text and, if it requires a mention, the message is
    mention-prefixed. *)
Definition entry_matches (msg : Message) (entry : ListenerEntry) : bool :=
  implb (require_mention entry) (mention msg)
  && search (pattern entry) (text msg).

(** Modelled from the spec: the dispatch over the registry, missing from
    the sources; a message is matched once per registered entry, in
    registration order, and the handlers of the matching entries are
    invoked.  The result lists the invocations. *)
Definition dispatch (listeners : list ListenerEntry) (msg : Message)
    : list Handler :=
  map handler (List.filter (entry_matches msg) listeners).

(** Registering several entries, one [listen] call each. *)
Definition listen_all (listeners entries : list ListenerEntry)
    : list ListenerEntry :=
  fold_left (fun acc entry =>
               listen acc (pattern entry) (handler entry)
                      (require_mention entry))
            entries listeners.

(** [register] of [ircbot/plugin/lab.py]. *)
Definition register (in_lab who_is_in_lab : Handler)
    (bot : list ListenerEntry) : list ListenerEntry :=
  let bot := listen bot "is ([a-z]+) in the lab" in_lab true in
  listen bot "(who is|who's) in the lab" who_is_in_lab true.

End Listeners.

Arguments pattern {Handler} _.
Arguments handler {Handler} _.
Arguments require_mention {Handler} _.
Arguments listen {Handler} _ _ _ _.
Arguments listen_all {Handler} _ _.
Arguments entry_matches {Handler} _ _ _.
Arguments dispatch {Handler} _ _ _.
Arguments register {Handler} _ _ _.

End Registry.

(** ** Messages that pass the guards of [on_pubmsg] *)

(** The event is for a joined channel with operators [channel], its source
    has exactly one [!] with [user] before it, [user] is not one of the
    bots, and it carries the single text [msg]. *)
Definition accepted (self : CreateBot) (event : Event)
    (channel : list string) (user msg : string) : Prop :=
  channels self !! target event = Some channel
  /\ PyStr.count "!" (source event) = 1
  /\ hd EmptyString (PyStr.split "!" (source event)) = user
  /\ PyStr.startswith "create" user = false
  /\ arguments event = [msg].

(** The summaries of the tickets whose lookup succeeds, in order. *)
Definition summaries (world : World) (tickets : list string) : list string :=
  omap (fun ticket => from_number world (PyStr.int ticket)) tickets.

(** A reply addressed to [user] on [target], as [respond] sends it. *)
Definition addressed (target user msg : string) : Effect :=
  Privmsg target (user +:+ ": " +:+ msg).

(** ** A deployment to evaluate on *)

(** The bot of user nobody, on its two channels; alice is an operator of
    #atool. *)
Definition atool_bot : CreateBot := {|
  rt_password := "secret";
  channels := <["#atool" := ["alice"]]> (<["#rebuild" := []]> ∅);
|}.

(** A ticket tracker that knows every ticket but number 404, and a task
    queue with two pending requests. *)
Definition atool_world : World := {|
  from_number := fun n =>
    if (n =? 404)%N then None else Some "ticket summary";
  pending_requests := WaitDone ["ann (Ann A)"; "ben (Ben B)"];
|}.

Definition pubmsg (source text : string) : Event :=
  {| source := source; target := "#atool"; arguments := [text] |}.

(** ** The relay's table, as the specification words it *)

(** The four kinds of lifecycle event. *)
Inductive LifecycleKind : Type :=
| Created
| Submitted
| Approved
| Rejected.

(** The event type under which the task queue publishes each kind. *)
Definition event_type (kind : LifecycleKind) : string :=
  match kind with
  | Created => "ocflib.account_created"
  | Submitted => "ocflib.account_submitted"
  | Approved => "ocflib.account_approved"
  | Rejected => "ocflib.account_rejected"
  end.

(** The message template of each kind, following the specification. *)
Definition spec_template (kind : LifecycleKind) (r : Request) : string :=
  match kind with
  | Created => user_name r +:+ " created (" +:+ real_name r +:+ ")"
  | Submitted =>
      user_name r +:+ " (" +:+ real_name r +:+ ") needs approval: "
      +:+ String.concat ", " (reasons r)
  | Approved => user_name r +:+ " was approved, now pending creation."
  | Rejected => user_name r +:+ " was rejected."
  end.

(** The channels joined in a trace. *)
Fixpoint joined_channels (tr : list Effect) : list string :=
  match tr with
  | [] => []
  | JoinChannel channel :: tr' => channel :: joined_channels tr'
  | _ :: tr' => joined_channels tr'
  end.

(** The channel set of each kind, following the specification: all the
    channels the bot joins on welcome, or the announcement channels. *)
Definition spec_targets (getuser : string) (kind : LifecycleKind)
    : list string :=
  match kind with
  | Submitted => joined_channels (effects (on_welcome getuser))
  | Created | Approved | Rejected => IRC_CHANNELS_ANNOUNCE
  end.

(** The subscriptions the relay gets to make: those of the feed up to and
    including the first that ends in a transport error. *)
Fixpoint served (feed : list Subscription) : list Subscription :=
  match feed with
  | [] => []
  | sub :: feed' =>
      sub :: match ending sub with
             | CaptureReturns => served feed'
             | CaptureRaises => []
             end
  end.

Definition returns (sub : Subscription) : bool :=
  match ending sub with
  | CaptureReturns => true
  | CaptureRaises => false
  end.

(** What the relay sends for the events of one subscription. *)
Definition announcements (getuser : string) (sub : Subscription)
    : list Effect :=
  concat (map (fun event => effects (process getuser event))
              (delivered sub)).

Definition ann : Request :=
  {| user_name := "ann"; real_name := "Ann A";
     reasons := ["bad id"; "missing photo"] |}.

(** A search for patterns without metacharacters: the pattern occurs in
    the text. *)
Definition literal_search (pattern text : string) : bool :=
  match String.index 0 pattern text with
  | Some _ => true
  | None => false
  end.

(** ** What a dispatch may do *)

(** An effect a dispatch on [target] may perform: a message to [target],
    or a request to the ticket tracker or to the task queue. *)
Definition on_channel (target : string) (e : Effect) : Prop :=
  match e with
  | Privmsg t _ => t = target
  | RtConnection _ _ | Delay _ _ | Wait _ _ => True
  | JoinChannel _ | Capture => False
  end.


(** An effect the relay may perform: a subscription, or a message to one of
    the configured channels. *)
Definition relay_effect (getuser : string) (e : Effect) : Prop :=
  match e with
  | Capture => True
  | Privmsg t _ => In t (IRC_CHANNELS getuser ++ IRC_CHANNELS_ANNOUNCE)
  | _ => False
  end.

(** A string of decimal digits. *)
Fixpoint all_digits (s : string) : bool :=
  match s with
  | EmptyString => true
  | String a s' => PyStr.isdigit a && all_digits s'
  end.

(** The decimal numeral of [n], as [str(n)] writes it. *)
Definition decimal (n : N) : string :=
  NilZero.string_of_uint (N.to_uint n).

(** ** The lab plugin (ircbot/plugin/lab.py) *)

Module Lab.

(** The plugin inserts U+200B into its text, so here Python text is a list
    of code points. *)
Abbreviation ustr := (list N).

(** A literal of the source. *)
Definition lit (s : string) : ustr :=
  map N_of_ascii (list_ascii_of_string s).

(** [c.isspace()]. *)
Definition isspace (c : N) : bool :=
  (((9 <=? c) && (c <=? 13)) || ((28 <=? c) && (c <=? 32))
   || (c =? 133) || (c =? 160) || (c =? 5760)
   || ((8192 <=? c) && (c <=? 8202)) || (c =? 8232) || (c =? 8233)
   || (c =? 8239) || (c =? 8287) || (c =? 12288))%N.

Fixpoint lstrip (s : ustr) : ustr :=
  match s with
  | [] => []
  | c :: s' => if isspace c then lstrip s' else s
  end.

Fixpoint rstrip (s : ustr) : ustr :=
  match s with
  | [] => []
  | c :: s' =>
      match rstrip s' with
      | [] => if isspace c then [] else [c]
      | r => c :: r
      end
  end.

(** [s.strip()]. *)
Definition strip (s : ustr) : ustr := rstrip (lstrip s).

(** [sep.join(l)]. *)
Fixpoint join (sep : ustr) (l : list ustr) : ustr :=
  match l with
  | [] => []
  | [x] => x
  | x :: l' => x ++ sep ++ join sep l'
  end.

(** ['{}'.format(n)] for an integer. *)
Definition str_int (n : Z) : ustr :=
  lit (NilZero.string_of_int (Z.to_int n)).

(** ['{}'.format(len(staff))]. *)
Definition str_len (n : nat) : ustr :=
  lit (NilZero.string_of_uint (Nat.to_uint n)).

(** The comparison of Python text: code point by code point, a proper
    prefix first. *)
Fixpoint str_leb (s t : ustr) : bool :=
  match s, t with
  | [], _ => true
  | _ :: _, [] => false
  | a :: s', b :: t' => (a <? b)%N || ((a =? b)%N && str_leb s' t')
  end.

Definition str_le (s t : ustr) : Prop := str_leb s t = true.

#[global] Instance str_le_dec (s t : ustr) : Decision (str_le s t) :=
  decide (str_leb s t = true).

(** [sorted(l)]. *)
Definition sorted (l : list ustr) : list ustr := merge_sort str_le l.

(** A login session as [staff_in_lab()] lists it; the plugin reads its
    user name only. *)
Record Session : Type := {
  user : ustr;
}.

(** What a handler does: the texts it hands to [msg.respond], in order, and
    how it ends. *)
Definition Reply : Type := list ustr * Outcome unit.

Definition respond (text : ustr) : Reply := ([text], Returned tt).

(** The loop of [in_lab]: the first session of [username] answers and
    breaks; the [else] of the loop answers when no session was found. *)
Fixpoint in_lab_loop (username : ustr) (sessions : list Session) : Reply :=
  match sessions with
  | [] => respond (username ++ lit " is not in the lab")
  | session :: sessions' =>
      if bool_decide (username = user session)
      then respond (username ++ lit " is in the lab")
      else in_lab_loop username sessions'
  end.

(** [in_lab], given [msg.match.group(1)] and the answer of
    [staff_in_lab()]. *)
Definition in_lab (staff_in_lab : list Session) (group1 : ustr) : Reply :=
  let username := strip group1 in
  in_lab_loop username staff_in_lab.

(** U+200B, the zero-width space. *)
Definition zero_width_space : N := 8203.

Definition _prevent_ping (staffer : ustr) : Outcome ustr :=
  match staffer with
  | [] => Raised IndexError
  | c :: rest => Returned ([c] ++ [zero_width_space] ++ rest)
  end.

(** The name [_prevent_ping] returns, when it returns. *)
Definition pinged (staffer : ustr) : ustr :=
  match staffer with
  | [] => []
  | c :: rest => c :: zero_width_space :: rest
  end.

(** A letter of the class [[a-z]]. *)
Definition lowercase (c : N) : Prop := (97 <= c <= 122)%N.

(** The generator [_prevent_ping(staffer) for staffer in staff], consumed
    to its end or to the first exception. *)
Fixpoint prevent_pings (staff : list ustr) : Outcome (list ustr) :=
  match staff with
  | [] => Returned []
  | staffer :: staff' =>
      match _prevent_ping staffer with
      | Raised e => Raised e
      | Returned name =>
          match prevent_pings staff' with
          | Raised e => Raised e
          | Returned names => Returned (name :: names)
          end
      end
  end.

(** [who_is_in_lab], given the answers of [staff_in_lab()] and of
    [users_in_lab_count()]. *)
Definition who_is_in_lab (staff_in_lab : list Session)
    (users_in_lab_count : Z) : Reply :=
  let staff : gset ustr := list_to_set (map user staff_in_lab) in
  let total := users_in_lab_count in
  let are_number_people :=
    if bool_decide (total <> 1%Z)
    then lit "are " ++ str_int total ++ lit " people"
    else lit "is 1 person" in
  let staff_list :=
    if bool_decide (staff <> ∅) then
      match prevent_pings (elements staff) with
      | Returned names =>
          Returned (lit ": " ++ join (lit ", ") (sorted names))
      | Raised e => Raised e
      end
    else Returned [] in
  match staff_list with
  | Returned staff_list =>
      respond (lit "there " ++ are_number_people
               ++ lit " in the lab, including "
               ++ str_len (size staff) ++ lit " staff" ++ staff_list)
  | Raised e => ([], Raised e)
  end.

End Lab.

(** * Properties *)

(** ** Strings *)

Lemma split_length (sep : ascii) (s : string) :
  length (PyStr.split sep s) = S (PyStr.count sep s).
Proof.
  induction s as [|a s IH]; simpl; [reflexivity|].
  destruct (Ascii.eqb a sep); simpl.
  - now rewrite IH.
  - destruct (PyStr.split sep s) as [|w ws]; simpl in *; [discriminate|].
    exact IH.
Qed.

(** A source with exactly one separator splits into exactly two pieces. *)
Lemma split_two (sep : ascii) (s : string) :
  PyStr.count sep s = 1 ->
  exists user host, PyStr.split sep s = [user; host].
Proof.
  intros Hc. pose proof (split_length sep s) as Hl. rewrite Hc in Hl.
  destruct (PyStr.split sep s) as [|u [|h [|x l]]]; try discriminate.
  now exists u, h.
Qed.

(** ** The ticket pattern *)

Lemma match_ticket_inv (s ds rest : string) :
  Re.match_ticket s = Some (ds, rest) ->
  exists s', s = String "r" (String "t" (String "#" s'))
             /\ Re.span_digits s' = (ds, rest) /\ ds <> EmptyString.
Proof.
  unfold Re.match_ticket. intros H.
  destruct s as [|a s]; [discriminate|].
  destruct a as [[|] [|] [|] [|] [|] [|] [|] [|]]; try discriminate.
  destruct s as [|a s]; [discriminate|].
  destruct a as [[|] [|] [|] [|] [|] [|] [|] [|]]; try discriminate.
  destruct s as [|a s]; [discriminate|].
  destruct a as [[|] [|] [|] [|] [|] [|] [|] [|]]; try discriminate.
  exists s. split; [reflexivity|].
  destruct (Re.span_digits s) as [d r]. destruct d; [discriminate|].
  inversion H; subst. split; [reflexivity | discriminate].
Qed.

Lemma match_ticket_head (a : ascii) (s : string) :
  a <> "r"%char -> Re.match_ticket (String a s) = None.
Proof.
  intros Ha. destruct (Re.match_ticket (String a s)) as [[ds rest]|] eqn:E;
    [|reflexivity].
  apply match_ticket_inv in E as (s' & Hs & _). congruence.
Qed.

Lemma isdigit_not_r (a : ascii) : PyStr.isdigit a = true -> a <> "r"%char.
Proof. intros H ->. discriminate. Qed.

Lemma span_digits_length (s ds rest : string) :
  Re.span_digits s = (ds, rest) -> String.length rest <= String.length s.
Proof.
  revert ds rest. induction s as [|a s IH]; simpl; intros ds rest H.
  - inversion H; subst; simpl; lia.
  - destruct (PyStr.isdigit a).
    + destruct (Re.span_digits s) as [d r]. inversion H; subst.
      specialize (IH d rest eq_refl). lia.
    + inversion H; subst; simpl; lia.
Qed.

(** No ticket reference starts inside a run of digits. *)
Lemma span_digits_occurrences (s ds rest : string) :
  Re.span_digits s = (ds, rest) -> Re.occurrences s = Re.occurrences rest.
Proof.
  revert ds rest. induction s as [|a s IH]; intros ds rest H.
  - simpl in H. now inversion H.
  - simpl in H. destruct (PyStr.isdigit a) eqn:Hd.
    + destruct (Re.span_digits s) as [d r]. inversion H; subst.
      change (Re.occurrences (String a s))
        with (match Re.match_ticket (String a s) with
              | Some _ => S (Re.occurrences s)
              | None => Re.occurrences s
              end).
      rewrite (match_ticket_head a s (isdigit_not_r a Hd)).
      now apply (IH d).
    + now inversion H.
Qed.

(** A match consumes at least one character, and the next reference starts
    no earlier than its end. *)
Lemma match_ticket_skip (s ds rest : string) :
  Re.match_ticket s = Some (ds, rest) ->
  String.length rest < String.length s
  /\ Re.occurrences s = S (Re.occurrences rest).
Proof.
  intros H. pose proof H as H0.
  apply match_ticket_inv in H as (s' & -> & Hsp & _).
  split.
  - apply span_digits_length in Hsp. simpl. lia.
  - change (Re.occurrences (String "r" (String "t" (String "#" s'))))
      with (match Re.match_ticket (String "r" (String "t" (String "#" s'))) with
            | Some _ => S (Re.occurrences (String "t" (String "#" s')))
            | None => Re.occurrences (String "t" (String "#" s'))
            end).
    rewrite H0. f_equal.
    change (Re.occurrences (String "t" (String "#" s')))
      with (match Re.match_ticket (String "#" s') with
            | Some _ => S (Re.occurrences s')
            | None => Re.occurrences s'
            end).
    rewrite match_ticket_head by discriminate.
    now apply (span_digits_occurrences s' ds).
Qed.

Lemma findall_from_length (fuel : nat) (s : string) :
  String.length s <= fuel ->
  length (Re.findall_from fuel s) = Re.occurrences s.
Proof.
  revert s. induction fuel as [|fuel IH]; intros s Hs.
  - destruct s; simpl in *; [reflexivity | lia].
  - destruct s as [|a s]; [reflexivity|].
    cbn [Re.findall_from Re.occurrences].
    destruct (Re.match_ticket (String a s)) as [[ds rest]|] eqn:E.
    + destruct (match_ticket_skip _ _ _ E) as [Hlen Hocc].
      cbn [length]. rewrite IH by (simpl in *; lia).
      cbn [Re.occurrences] in Hocc. rewrite E in Hocc. lia.
    + apply IH. simpl in Hs. lia.
Qed.

(** The scan never runs out of fuel: any fuel that covers the text gives
    the same matches. *)
Lemma findall_from_enough (fuel fuel' : nat) (s : string) :
  String.length s <= fuel -> String.length s <= fuel' ->
  Re.findall_from fuel s = Re.findall_from fuel' s.
Proof.
  revert fuel' s. induction fuel as [|fuel IH]; intros fuel' s Hs Hs'.
  - destruct s; simpl in Hs; [now destruct fuel' | lia].
  - destruct s as [|a s]; [now destruct fuel'|].
    destruct fuel' as [|fuel']; [simpl in Hs'; lia|].
    cbn [Re.findall_from].
    destruct (Re.match_ticket (String a s)) as [[ds rest]|] eqn:E.
    + destruct (match_ticket_skip _ _ _ E) as [Hlen _].
      f_equal. apply IH; simpl in *; lia.
    + apply IH; simpl in *; lia.
Qed.

(** [re.findall] returns one capture per ticket reference of the text. *)
Lemma findall_length (msg : string) :
  length (Re.findall msg) = Re.occurrences msg.
Proof. apply findall_from_length. lia. Qed.

(** ** The monad *)

Lemma bind_perform {A} (e : Effect) (k : unit -> M A) :
  bind (perform e) k = (e :: effects (k tt), outcome (k tt)).
Proof. unfold bind, perform, effects, outcome. now destruct (k tt). Qed.

Lemma bind_pure {A} (tr : list Effect) (k : unit -> M A) :
  bind (tr, Returned tt) k = (tr ++ effects (k tt), outcome (k tt)).
Proof. unfold bind, effects, outcome. now destruct (k tt). Qed.

Lemma for_each_perform {A} (f : A -> Effect) (l : list A) :
  for_each l (fun x => perform (f x)) = (map f l, Returned tt).
Proof.
  induction l as [|x l IH]; [reflexivity|].
  cbn [for_each map]. now rewrite bind_perform, IH.
Qed.

Lemma privmsgs_addressed (target user : string) (l : list string) :
  privmsgs (map (addressed target user) l)
  = map (fun m => (target, user +:+ ": " +:+ m)) l.
Proof. induction l as [|m l IH]; simpl; [reflexivity | now rewrite IH]. Qed.

(** ** Dispatch *)

(** The ticket loop never raises: a failed lookup is passed over and the
    loop goes on; it answers with the summary of each ticket found. *)
Lemma ticket_loop_spec (world : World) (tickets : list string)
    (target user : string) :
  ticket_loop world tickets (respond target user)
  = (map (addressed target user) (summaries world tickets), Returned tt).
Proof.
  unfold ticket_loop, summaries.
  induction tickets as [|t tickets IH]; [reflexivity|].
  cbn [for_each omap list_omap]. rewrite IH.
  destruct (from_number world (PyStr.int t)) as [summary|]; reflexivity.
Qed.

(** Past its guards, [on_pubmsg] answers the ticket references of the text
    if there are any, and only otherwise looks for a command. *)
Lemma on_pubmsg_accepted (getuser : string) (world : World)
    (self : CreateBot) (event : Event) (channel : list string)
    (user msg : string) :
  accepted self event channel user msg ->
  on_pubmsg getuser world self event =
    match Re.findall msg with
    | (_ :: _) as tickets =>
        perform (RtConnection "create" (rt_password self)) ;;
        ticket_loop world tickets (respond (target event) user)
    | [] =>
        if mention_prefixed getuser msg then
          match command_words getuser msg with
          | command :: args =>
              handle_command world (existsb (String.eqb user) channel)
                command args (respond (target event) user)
          | [] => raise ValueError
          end
        else ret tt
    end.
Proof.
  intros (Hch & Hcnt & Hu & Hself & Hargs). unfold on_pubmsg.
  rewrite Hch, Hcnt. cbn [Nat.eqb negb].
  destruct (split_two _ _ Hcnt) as (u & h & Hsp). rewrite Hsp in Hu |- *.
  cbn [hd] in Hu. subst u. now rewrite Hself, Hargs.
Qed.

Lemma on_pubmsg_tickets (getuser : string) (world : World)
    (self : CreateBot) (event : Event) (channel : list string)
    (user msg : string) :
  accepted self event channel user msg ->
  Re.findall msg <> [] ->
  on_pubmsg getuser world self event
  = (RtConnection "create" (rt_password self)
       :: map (addressed (target event) user)
              (summaries world (Re.findall msg)),
     Returned tt).
Proof.
  intros Hacc Hne. rewrite (on_pubmsg_accepted _ _ _ _ _ _ _ Hacc).
  destruct (Re.findall msg) as [|t ts]; [contradiction|].
  now rewrite bind_perform, ticket_loop_spec.
Qed.

Lemma on_pubmsg_command (getuser : string) (world : World)
    (self : CreateBot) (event : Event) (channel : list string)
    (user msg command : string) (args : list string) :
  accepted self event channel user msg ->
  Re.findall msg = [] ->
  mention_prefixed getuser msg = true ->
  command_words getuser msg = command :: args ->
  on_pubmsg getuser world self event
  = handle_command world (existsb (String.eqb user) channel) command args
      (respond (target event) user).
Proof.
  intros Hacc Hno Hm Hw. rewrite (on_pubmsg_accepted _ _ _ _ _ _ _ Hacc).
  now rewrite Hno, Hm, Hw.
Qed.


(** ** Ticket references and commands in one message *)

(** C1, as stated, fails.  The message "create: thanks rt#12" from bob holds
    a ticket reference and is mention-prefixed; the command handler would
    answer "bob: you're welcome", but dispatch sends the ticket summary only
    and that answer is not among its effects. *)
Lemma C1_both_actions_counterexample :
  accepted atool_bot (pubmsg "bob!~bob@host" "create: thanks rt#12")
    ["alice"] "bob" "create: thanks rt#12"
  /\ Re.occurrences "create: thanks rt#12" = 1
  /\ mention_prefixed "nobody" "create: thanks rt#12" = true
  /\ command_words "nobody" "create: thanks rt#12" = ["thanks"; "rt#12"]
  /\ handle_command atool_world false "thanks" ["rt#12"]
       (respond "#atool" "bob")
     = ([addressed "#atool" "bob" "you're welcome"], Returned tt)
  /\ on_pubmsg "nobody" atool_world atool_bot
       (pubmsg "bob!~bob@host" "create: thanks rt#12")
     = ([RtConnection "create" "secret";
         addressed "#atool" "bob" "ticket summary"], Returned tt)
  /\ ~ In (addressed "#atool" "bob" "you're welcome")
          (effects (on_pubmsg "nobody" atool_world atool_bot
                      (pubmsg "bob!~bob@host" "create: thanks rt#12"))).
Proof.
  repeat split; try (vm_compute; reflexivity).
  vm_compute. intros [H|[H|[]]]; discriminate.
Qed.

(** C1, amended: for a message that holds at least one ticket reference and
    is mention-prefixed, dispatch answers the ticket references and does
    nothing else: it logs in to the tracker, sends the summary of each
    ticket found, and neither parses nor handles the command. *)
Theorem C1_ticket_references_exclude_command (getuser : string)
    (world : World) (self : CreateBot) (event : Event)
    (channel : list string) (user msg : string) :
  accepted self event channel user msg ->
  0 < Re.occurrences msg ->
  mention_prefixed getuser msg = true ->
  on_pubmsg getuser world self event
  = (RtConnection "create" (rt_password self)
       :: map (addressed (target event) user)
              (summaries world (Re.findall msg)),
     Returned tt).
Proof.
  intros Hacc Hocc _. apply (on_pubmsg_tickets _ _ _ _ _ _ _ Hacc).
  intros Hnil. rewrite <- findall_length, Hnil in Hocc. simpl in Hocc. lia.
Qed.

Lemma C1_ticket_references_exclude_command_witness :
  accepted atool_bot (pubmsg "bob!~bob@host" "create: thanks rt#12")
    ["alice"] "bob" "create: thanks rt#12"
  /\ 0 < Re.occurrences "create: thanks rt#12"
  /\ mention_prefixed "nobody" "create: thanks rt#12" = true
  /\ on_pubmsg "nobody" atool_world atool_bot
       (pubmsg "bob!~bob@host" "create: thanks rt#12")
     = (RtConnection "create" (rt_password atool_bot)
          :: map (addressed "#atool" "bob")
                 (summaries atool_world (Re.findall "create: thanks rt#12")),
        Returned tt).
Proof.
  assert (Hacc : accepted atool_bot
                   (pubmsg "bob!~bob@host" "create: thanks rt#12")
                   ["alice"] "bob" "create: thanks rt#12")
    by (repeat split; vm_compute; reflexivity).
  assert (Hocc : 0 < Re.occurrences "create: thanks rt#12")
    by (vm_compute; lia).
  assert (Hm : mention_prefixed "nobody" "create: thanks rt#12" = true)
    by reflexivity.
  split; [exact Hacc|]. split; [exact Hocc|]. split; [exact Hm|].
  exact (C1_ticket_references_exclude_command "nobody" atool_world atool_bot
           _ _ _ _ Hacc Hocc Hm).
Defined.

(** ** Malformed sources *)

(** C2, as stated, fails.  The source "bob" has no [!]; on a joined channel
    the assertion of [on_pubmsg] fails and AssertionError leaves the
    handler: the message is not dropped quietly. *)
Lemma C2_malformed_source_counterexample :
  PyStr.count "!" (source (pubmsg "bob" "hello")) <> 1
  /\ on_pubmsg "nobody" atool_world atool_bot (pubmsg "bob" "hello")
     = ([], Raised AssertionError)
  /\ outcome (on_pubmsg "nobody" atool_world atool_bot (pubmsg "bob" "hello"))
     <> Returned tt.
Proof.
  repeat split; try (vm_compute; reflexivity); vm_compute; discriminate.
Qed.

(** C2, amended: for a message whose source does not hold exactly one [!],
    dispatch makes no Responder call (indeed performs no effect); on a
    joined channel it raises AssertionError, which leaves [on_pubmsg], and
    on any other channel it returns. *)
Theorem C2_malformed_source_asserts (getuser : string) (world : World)
    (self : CreateBot) (event : Event) :
  PyStr.count "!" (source event) <> 1 ->
  on_pubmsg getuser world self event
  = ([], match channels self !! target event with
         | Some _ => Raised AssertionError
         | None => Returned tt
         end).
Proof.
  intros Hc. unfold on_pubmsg.
  destruct (channels self !! target event) as [channel|]; [|reflexivity].
  destruct (Nat.eqb_spec (PyStr.count "!" (source event)) 1) as [E|_];
    [contradiction | reflexivity].
Qed.

Lemma C2_malformed_source_asserts_witness :
  PyStr.count "!" (source (pubmsg "a!b!c" "hello")) <> 1
  /\ on_pubmsg "nobody" atool_world atool_bot (pubmsg "a!b!c" "hello")
     = ([], match channels atool_bot !! target (pubmsg "a!b!c" "hello") with
            | Some _ => Raised AssertionError
            | None => Returned tt
            end).
Proof.
  assert (Hc : PyStr.count "!" (source (pubmsg "a!b!c" "hello")) <> 1)
    by (vm_compute; lia).
  split; [exact Hc|].
  exact (C2_malformed_source_asserts "nobody" atool_world atool_bot _ Hc).
Defined.

(** ** Ticket lookups *)

Lemma summaries_length (world : World) (tickets : list string) :
  length (summaries world tickets) <= length tickets.
Proof.
  unfold summaries. induction tickets as [|t ts IH]; [reflexivity|].
  cbn [omap list_omap].
  destruct (from_number world (PyStr.int t)); cbn [length]; lia.
Qed.

Lemma summaries_all_found (world : World) (tickets : list string) :
  (forall t, In t tickets -> is_Some (from_number world (PyStr.int t))) ->
  length (summaries world tickets) = length tickets.
Proof.
  unfold summaries. induction tickets as [|t ts IH]; intros H; [reflexivity|].
  cbn [omap list_omap].
  destruct (H t (or_introl eq_refl)) as [summary ->]. cbn [length].
  f_equal. apply IH. intros t' Ht'. apply H. now right.
Qed.

(** C3: with k ticket references in the text, [re.findall] yields k numbers
    and the loop over them never raises: it answers each ticket found and
    passes over each failed lookup, going on with the rest.  It makes at
    most k Responder calls, exactly k when every lookup succeeds, and when
    k is positive these are the Responder calls of the whole dispatch,
    which returns normally. *)
Theorem C3_ticket_lookups (getuser : string) (world : World)
    (self : CreateBot) (event : Event) (channel : list string)
    (user msg : string) :
  accepted self event channel user msg ->
  let tickets := Re.findall msg in
  let loop := ticket_loop world tickets (respond (target event) user) in
  length tickets = Re.occurrences msg
  /\ loop = (map (addressed (target event) user) (summaries world tickets),
             Returned tt)
  /\ length (privmsgs (effects loop)) <= Re.occurrences msg
  /\ ((forall t, In t tickets ->
         is_Some (from_number world (PyStr.int t))) ->
      length (privmsgs (effects loop)) = Re.occurrences msg)
  /\ (0 < Re.occurrences msg ->
      on_pubmsg getuser world self event
      = (RtConnection "create" (rt_password self) :: effects loop,
         Returned tt)
      /\ privmsgs (effects (on_pubmsg getuser world self event))
         = privmsgs (effects loop)).
Proof.
  intros Hacc tickets loop. subst loop.
  rewrite ticket_loop_spec. unfold effects at 1 2. cbn [fst].
  rewrite privmsgs_addressed, length_map. subst tickets.
  rewrite <- findall_length.
  repeat split.
  - apply summaries_length.
  - apply summaries_all_found.
  - rewrite (on_pubmsg_tickets _ _ _ _ _ _ _ Hacc); [reflexivity|].
    intros Hnil. rewrite Hnil in H. simpl in H. lia.
  - rewrite (on_pubmsg_tickets _ _ _ _ _ _ _ Hacc); [reflexivity|].
    intros Hnil. rewrite Hnil in H. simpl in H. lia.
Qed.

Lemma C3_ticket_lookups_witness :
  accepted atool_bot (pubmsg "bob!~bob@host" "rt#1, rt#404 and rt#22")
    ["alice"] "bob" "rt#1, rt#404 and rt#22"
  /\ length (Re.findall "rt#1, rt#404 and rt#22")
     = Re.occurrences "rt#1, rt#404 and rt#22"
  /\ on_pubmsg "nobody" atool_world atool_bot
       (pubmsg "bob!~bob@host" "rt#1, rt#404 and rt#22")
     = (RtConnection "create" (rt_password atool_bot)
          :: effects (ticket_loop atool_world
                        (Re.findall "rt#1, rt#404 and rt#22")
                        (respond "#atool" "bob")),
        Returned tt).
Proof.
  assert (Hacc : accepted atool_bot
                   (pubmsg "bob!~bob@host" "rt#1, rt#404 and rt#22")
                   ["alice"] "bob" "rt#1, rt#404 and rt#22")
    by (repeat split; vm_compute; reflexivity).
  destruct (C3_ticket_lookups "nobody" atool_world atool_bot _ _ _ _ Hacc)
    as (Hk & _ & _ & _ & Hdispatch).
  split; [exact Hacc|]. split; [exact Hk|].
  apply Hdispatch. vm_compute. lia.
Defined.

(** The three references of that message: two answers, the failed lookup of
    ticket 404 passed over. *)
Example three_references :
  on_pubmsg "nobody" atool_world atool_bot
    (pubmsg "bob!~bob@host" "rt#1, rt#404 and rt#22")
  = ([RtConnection "create" "secret";
      addressed "#atool" "bob" "ticket summary";
      addressed "#atool" "bob" "ticket summary"], Returned tt).
Proof. vm_compute. reflexivity. Qed.

(** ** The listener registry *)

Section RegistryFacts.

Context {Handler : Type} (search : string -> string -> bool).

Lemma listen_all_app (listeners entries : list (Registry.ListenerEntry Handler)) :
  Registry.listen_all listeners entries = listeners ++ entries.
Proof.
  revert listeners. induction entries as [|e es IH]; intros listeners.
  - simpl. now rewrite app_nil_r.
  - simpl. rewrite IH. unfold Registry.listen. destruct e; simpl.
    now rewrite <- app_assoc.
Qed.

Lemma dispatch_app (l1 l2 : list (Registry.ListenerEntry Handler))
    (msg : Registry.Message) :
  Registry.dispatch search (l1 ++ l2) msg
  = Registry.dispatch search l1 msg ++ Registry.dispatch search l2 msg.
Proof.
  unfold Registry.dispatch. now rewrite List.filter_app, map_app.
Qed.

Lemma dispatch_no_match (l : list (Registry.ListenerEntry Handler))
    (msg : Registry.Message) :
  (forall e, In e l -> Registry.entry_matches search msg e = false) ->
  Registry.dispatch search l msg = [].
Proof.
  unfold Registry.dispatch. induction l as [|e l IH]; intros H;
    [reflexivity|].
  simpl. rewrite (H e (or_introl eq_refl)). apply IH.
  intros e' He'. apply H. now right.
Qed.

End RegistryFacts.

(** C4: a listener registered among any number of listeners that do not
    match, before it or after it, is dispatched exactly once by a message
    that matches it, and nothing else is dispatched. *)
Theorem C4_listener_dispatched_once {Handler : Type}
    (search : string -> string -> bool)
    (before after : list (Registry.ListenerEntry Handler))
    (pattern : string) (fn : Handler) (require_mention : bool)
    (msg : Registry.Message) :
  (forall e, In e before -> Registry.entry_matches search msg e = false) ->
  (forall e, In e after -> Registry.entry_matches search msg e = false) ->
  Registry.entry_matches search msg
    {| Registry.pattern := pattern; Registry.handler := fn;
       Registry.require_mention := require_mention |} = true ->
  Registry.dispatch search
    (Registry.listen_all
       (Registry.listen (Registry.listen_all [] before)
          pattern fn require_mention)
       after)
    msg
  = [fn].
Proof.
  intros Hb Ha Hm. rewrite !listen_all_app. unfold Registry.listen.
  rewrite !dispatch_app, (dispatch_no_match search before msg Hb),
    (dispatch_no_match search after msg Ha).
  unfold Registry.dispatch. simpl. now rewrite Hm.
Qed.

Lemma C4_listener_dispatched_once_witness :
  (forall e, In e (Registry.register "in_lab" "who_is_in_lab" []) ->
     Registry.entry_matches literal_search
       {| Registry.text := "create: ping"; Registry.mention := true |} e
     = false)
  /\ (forall e : Registry.ListenerEntry string, In e [] ->
        Registry.entry_matches literal_search
          {| Registry.text := "create: ping"; Registry.mention := true |} e
        = false)
  /\ Registry.entry_matches literal_search
       {| Registry.text := "create: ping"; Registry.mention := true |}
       {| Registry.pattern := "ping"; Registry.handler := "pong";
          Registry.require_mention := true |} = true
  /\ Registry.dispatch literal_search
       (Registry.listen_all
          (Registry.listen
             (Registry.listen_all []
                (Registry.register "in_lab" "who_is_in_lab" []))
             "ping" "pong" true)
          [])
       {| Registry.text := "create: ping"; Registry.mention := true |}
     = ["pong"].
Proof.
  assert (Hb : forall e,
             In e (Registry.register "in_lab" "who_is_in_lab" []) ->
             Registry.entry_matches literal_search
               {| Registry.text := "create: ping";
                  Registry.mention := true |} e = false)
    by (intros e [<-|[<-|[]]]; reflexivity).
  assert (Ha : forall e : Registry.ListenerEntry string, In e [] ->
             Registry.entry_matches literal_search
               {| Registry.text := "create: ping";
                  Registry.mention := true |} e = false)
    by (intros e []).
  assert (Hm : Registry.entry_matches literal_search
                 {| Registry.text := "create: ping";
                    Registry.mention := true |}
                 {| Registry.pattern := "ping"; Registry.handler := "pong";
                    Registry.require_mention := true |} = true)
    by reflexivity.
  split; [exact Hb|]. split; [exact Ha|]. split; [exact Hm|].
  exact (C4_listener_dispatched_once literal_search _ _ _ _ _ _ Hb Ha Hm).
Defined.

(** ** The relay *)

Lemma bot_announce_spec (targets : list string) (message : string) :
  bot_announce targets message
  = (map (fun target => Privmsg target message) targets, Returned tt).
Proof. apply for_each_perform. Qed.

Lemma handlers_lookup (getuser ty : string) (h : CeleryEvent -> M unit) :
  handlers getuser !! ty = Some h ->
  h = on_account_created \/ h = on_account_submitted getuser
  \/ h = on_account_approved \/ h = on_account_rejected.
Proof.
  unfold handlers. rewrite !lookup_insert, lookup_empty.
  repeat case_decide; intros Hlookup; inversion Hlookup; auto.
Qed.

(** The handlers only announce: an event never makes [process] raise. *)
Lemma process_returns (getuser : string) (event : CeleryEvent) :
  process getuser event = (effects (process getuser event), Returned tt).
Proof.
  unfold process.
  destruct (handlers getuser !! type event) as [h|] eqn:E; [|reflexivity].
  apply handlers_lookup in E as [-> | [-> | [-> | ->]]];
    unfold on_account_created, on_account_submitted, on_account_approved,
      on_account_rejected; now rewrite bot_announce_spec.
Qed.

Lemma for_each_process (getuser : string) (events : list CeleryEvent) :
  for_each events (process getuser)
  = (concat (map (fun event => effects (process getuser event)) events),
     Returned tt).
Proof.
  induction events as [|event events IH]; [reflexivity|].
  cbn [for_each map concat]. rewrite process_returns, IH.
  now rewrite bind_pure.
Qed.

Lemma capture_spec (getuser : string) (sub : Subscription) :
  capture getuser sub
  = (Capture :: announcements getuser sub,
     if returns sub then Returned tt else Raised TransportError).
Proof.
  unfold capture, announcements, returns.
  rewrite bind_perform, for_each_process, bind_pure.
  destruct (ending sub); unfold effects, outcome; simpl;
    now rewrite app_nil_r.
Qed.

(** C5, as stated, fails.  The first subscription delivers one event and
    then ends in a transport error; the error leaves [celery_listener], the
    second subscription is never made and its event is never announced. *)
Lemma C5_relay_disconnect_counterexample :
  celery_listener "nobody"
    [ {| delivered := [{| type := "ocflib.account_created"; request := ann |}];
         ending := CaptureRaises |};
      {| delivered := [{| type := "ocflib.account_rejected"; request := ann |}];
         ending := CaptureReturns |} ]
  = ([Capture; Privmsg "#atool" "ann created (Ann A)"],
     Raised TransportError)
  /\ process "nobody" {| type := "ocflib.account_rejected"; request := ann |}
     = ([Privmsg "#atool" "ann was rejected."], Returned tt).
Proof. split; vm_compute; reflexivity. Qed.

(** C5, amended: after a subscription that ends with [capture] returning,
    the relay subscribes again and goes on announcing; a transport error
    raised inside [capture] is not caught, it leaves [celery_listener], and
    no later subscription is made.  The loop itself never returns: as long
    as no error is raised the relay is still looping. *)
Theorem C5_relay_loop (getuser : string) (feed : list Subscription) :
  celery_listener getuser feed
  = (concat (map (fun sub => Capture :: announcements getuser sub)
                 (served feed)),
     if forallb returns feed then Returned Looping
     else Raised TransportError).
Proof.
  induction feed as [|sub feed IH]; [reflexivity|].
  cbn [celery_listener served forallb map concat].
  rewrite capture_spec, IH. unfold returns at 1 3.
  destruct (ending sub); cbn [bind andb]; [|now rewrite app_nil_r].
  reflexivity.
Qed.

(** ** Announcements *)

Lemma joined_on_welcome (getuser : string) :
  joined_channels (effects (on_welcome getuser)) = IRC_CHANNELS getuser.
Proof.
  unfold on_welcome. rewrite for_each_perform. unfold effects. cbn [fst].
  induction (IRC_CHANNELS getuser) as [|c l IH]; simpl; congruence.
Qed.

Lemma handlers_at (getuser : string) (kind : LifecycleKind) :
  handlers getuser !! event_type kind
  = Some match kind with
         | Created => on_account_created
         | Submitted => on_account_submitted getuser
         | Approved => on_account_approved
         | Rejected => on_account_rejected
         end.
Proof. destruct kind; reflexivity. Qed.

(** C6: an event of each kind is announced with the template of its kind on
    the channel set of its kind, once per channel and nowhere else:
    Submitted on all the channels the bot joins, the other three on the
    announcement channels. *)
Theorem C6_event_announcements (getuser : string) (kind : LifecycleKind)
    (r : Request) :
  process getuser {| type := event_type kind; request := r |}
  = (map (fun channel => Privmsg channel (spec_template kind r))
         (spec_targets getuser kind),
     Returned tt).
Proof.
  unfold spec_targets. rewrite joined_on_welcome.
  unfold process. cbn [type]. rewrite handlers_at.
  destruct kind; apply bot_announce_spec.
Qed.

(** The example of the specification. *)
Example submitted_announcement :
  process "nobody" {| type := "ocflib.account_submitted"; request := ann |}
  = ([Privmsg "#rebuild" "ann (Ann A) needs approval: bad id, missing photo";
      Privmsg "#atool" "ann (Ann A) needs approval: bad id, missing photo"],
     Returned tt).
Proof. vm_compute. reflexivity. Qed.

(** ** Commands *)

Lemma for_each_respond (target user : string) (l : list string) :
  for_each l (fun request => respond target user request true)
  = (map (addressed target user) l, Returned tt).
Proof. exact (for_each_perform (addressed target user) l). Qed.

(** For a sender who is not an operator only [thanks] and [thank] do
    anything. *)
Lemma handle_command_non_operator (world : World) (command : string)
    (args : list string) (respond : Responder) :
  handle_command world false command args respond
  = if String.eqb command "thanks" then respond "you're welcome" true
    else if String.eqb command "thank" then
      if String.eqb (PyStr.join " " args) "you"
      then respond "you're most welcome" true
      else respond ("thanks, " +:+ PyStr.join " " args +:+ "!") false
    else ret tt.
Proof.
  unfold handle_command. cbn [bind ret].
  destruct (String.eqb command "thanks"); [now destruct (respond _ _)|].
  destruct (String.eqb command "thank"); [|reflexivity].
  destruct (String.eqb (PyStr.join " " args) "you");
    now destruct (respond _ _).
Qed.

(** C7: from a sender who is not an operator, [list], [approve] and
    [reject] have no effect at all, so no Responder call and no task, with
    whatever responder and arguments; [thanks] and [thank] are answered. *)
Theorem C7_non_operator_commands (world : World) (args : list string)
    (reply : Responder) (target user : string) :
  handle_command world false "list" args reply = ([], Returned tt)
  /\ handle_command world false "approve" args reply = ([], Returned tt)
  /\ handle_command world false "reject" args reply = ([], Returned tt)
  /\ handle_command world false "thanks" args (respond target user)
     = ([addressed target user "you're welcome"], Returned tt)
  /\ handle_command world false "thank" args (respond target user)
     = ([if String.eqb (PyStr.join " " args) "you"
         then addressed target user "you're most welcome"
         else Privmsg target ("thanks, " +:+ PyStr.join " " args +:+ "!")],
        Returned tt).
Proof.
  rewrite !handle_command_non_operator. cbn [String.eqb Ascii.eqb Bool.eqb].
  repeat split.
  now destruct (String.eqb (PyStr.join " " args) "you").
Qed.

(** C8: for every sender, operator or not, [thank] with the words "you" is
    answered "you're most welcome" with the sender addressed, [thank] with
    any other words w is answered "thanks, w!" with no prefix, and [thanks]
    is answered "you're welcome" with the sender addressed. *)
Theorem C8_thanks_and_thank (world : World) (is_oper : bool)
    (args : list string) (target user : string) :
  handle_command world is_oper "thank" args (respond target user)
  = ([Privmsg target
        (if String.eqb (PyStr.join " " args) "you"
         then user +:+ ": " +:+ "you're most welcome"
         else "thanks, " +:+ PyStr.join " " args +:+ "!")],
     Returned tt)
  /\ handle_command world is_oper "thanks" args (respond target user)
     = ([Privmsg target (user +:+ ": " +:+ "you're welcome")], Returned tt).
Proof.
  unfold handle_command. destruct is_oper;
    cbn [String.eqb Ascii.eqb Bool.eqb bind ret app];
    (split; [|reflexivity]);
    now destruct (String.eqb (PyStr.join " " args) "you").
Qed.

(** The two examples of the specification, through the whole dispatch. *)
Example thank_you :
  on_pubmsg "nobody" atool_world atool_bot
    (pubmsg "bob!~bob@host" "create: thank you")
  = ([Privmsg "#atool" "bob: you're most welcome"], Returned tt).
Proof. vm_compute. reflexivity. Qed.

Example thank_pizza :
  on_pubmsg "nobody" atool_world atool_bot
    (pubmsg "bob!~bob@host" "create: thank pizza")
  = ([Privmsg "#atool" "thanks, pizza!"], Returned tt).
Proof. vm_compute. reflexivity. Qed.

(** C9: for an operator, [list] submits [get_pending_requests] and waits
    for it with a timeout of 5 seconds; an empty result is answered "no
    pending requests", a timeout is answered with the apology, and any
    other result is answered with one Responder call per pending request,
    in order. *)
Theorem C9_operator_list (lookup : N -> option string)
    (args : list string) (target user request : string)
    (requests : list string) :
  handle_command {| from_number := lookup; pending_requests := WaitDone [] |}
    true "list" args (respond target user)
  = ([Delay "get_pending_requests" []; Wait "get_pending_requests" 5;
      addressed target user "no pending requests"], Returned tt)
  /\ handle_command
       {| from_number := lookup; pending_requests := WaitTimedOut |}
       true "list" args (respond target user)
     = ([Delay "get_pending_requests" []; Wait "get_pending_requests" 5;
         addressed target user "timed out loading list of requests, sorry!"],
        Returned tt)
  /\ handle_command
       {| from_number := lookup;
          pending_requests := WaitDone (request :: requests) |}
       true "list" args (respond target user)
     = (Delay "get_pending_requests" [] :: Wait "get_pending_requests" 5
          :: map (addressed target user) (request :: requests),
        Returned tt)
  /\ length (privmsgs (effects (handle_command
       {| from_number := lookup;
          pending_requests := WaitDone (request :: requests) |}
       true "list" args (respond target user))))
     = length (request :: requests).
Proof.
  assert (Hlist : handle_command
       {| from_number := lookup;
          pending_requests := WaitDone (request :: requests) |}
       true "list" args (respond target user)
     = (Delay "get_pending_requests" [] :: Wait "get_pending_requests" 5
          :: map (addressed target user) (request :: requests),
        Returned tt)).
  { unfold handle_command.
    cbn [String.eqb Ascii.eqb Bool.eqb pending_requests].
    rewrite for_each_respond, !bind_perform, bind_pure.
    unfold effects, outcome, ret. cbn [fst snd]. now rewrite app_nil_r. }
  split; [reflexivity|]. split; [reflexivity|]. split; [exact Hlist|].
  rewrite Hlist. unfold effects. cbn [fst privmsgs].
  fold (addressed target user request).
  change (addressed target user request :: map (addressed target user) requests)
    with (map (addressed target user) (request :: requests)).
  now rewrite privmsgs_addressed, length_map.
Qed.

(** C10: for an operator, [approve] and [reject] with no argument word
    raise IndexError at [args[0]], before any task is submitted and before
    any response; dispatch of such a message ends with that IndexError and
    no effect. *)
Theorem C10_operator_command_without_argument (getuser : string)
    (world : World) (self : CreateBot) (event : Event)
    (channel : list string) (user msg command : string) :
  accepted self event channel user msg ->
  existsb (String.eqb user) channel = true ->
  Re.findall msg = [] ->
  mention_prefixed getuser msg = true ->
  command_words getuser msg = [command] ->
  command = "approve" \/ command = "reject" ->
  handle_command world true command [] (respond (target event) user)
  = ([], Raised IndexError)
  /\ on_pubmsg getuser world self event = ([], Raised IndexError).
Proof.
  intros Hacc Hop Hno Hm Hw Hc.
  rewrite (on_pubmsg_command _ _ _ _ _ _ _ _ _ Hacc Hno Hm Hw), Hop.
  destruct Hc as [-> | ->]; split; reflexivity.
Qed.

Lemma C10_operator_command_without_argument_witness :
  accepted atool_bot (pubmsg "alice!~alice@host" "create: approve")
    ["alice"] "alice" "create: approve"
  /\ existsb (String.eqb "alice") ["alice"] = true
  /\ Re.findall "create: approve" = []
  /\ mention_prefixed "nobody" "create: approve" = true
  /\ command_words "nobody" "create: approve" = ["approve"]
  /\ ("approve" = "approve" \/ "approve" = "reject")
  /\ handle_command atool_world true "approve" []
       (respond "#atool" "alice")
     = ([], Raised IndexError)
  /\ on_pubmsg "nobody" atool_world atool_bot
       (pubmsg "alice!~alice@host" "create: approve")
     = ([], Raised IndexError).
Proof.
  assert (Hacc : accepted atool_bot
                   (pubmsg "alice!~alice@host" "create: approve")
                   ["alice"] "alice" "create: approve")
    by (repeat split; vm_compute; reflexivity).
  assert (Hop : existsb (String.eqb "alice") ["alice"] = true)
    by reflexivity.
  assert (Hno : Re.findall "create: approve" = []) by reflexivity.
  assert (Hm : mention_prefixed "nobody" "create: approve" = true)
    by reflexivity.
  assert (Hw : command_words "nobody" "create: approve" = ["approve"])
    by reflexivity.
  assert (Hc : "approve" = "approve" \/ "approve" = "reject")
    by (left; reflexivity).
  split; [exact Hacc|]. split; [exact Hop|]. split; [exact Hno|].
  split; [exact Hm|]. split; [exact Hw|]. split; [exact Hc|].
  exact (C10_operator_command_without_argument "nobody" atool_world
           atool_bot _ _ _ _ _ Hacc Hop Hno Hm Hw Hc).
Defined.

(** The gate and the missing argument, through the whole dispatch: bob is
    not an operator of #atool, alice is. *)
Example list_from_non_operator :
  on_pubmsg "nobody" atool_world atool_bot
    (pubmsg "bob!~bob@host" "create: list")
  = ([], Returned tt).
Proof. vm_compute. reflexivity. Qed.

Example list_from_operator :
  on_pubmsg "nobody" atool_world atool_bot
    (pubmsg "alice!~alice@host" "create: list")
  = ([Delay "get_pending_requests" []; Wait "get_pending_requests" 5;
      Privmsg "#atool" "alice: ann (Ann A)";
      Privmsg "#atool" "alice: ben (Ben B)"], Returned tt).
Proof. vm_compute. reflexivity. Qed.

Example reject_without_argument :
  on_pubmsg "nobody" atool_world atool_bot
    (pubmsg "alice!~alice@host" "create reject")
  = ([], Raised IndexError).
Proof. vm_compute. reflexivity. Qed.


(** * Further properties of the bot *)

(** ** Splitting and joining *)

Lemma count_app (c : ascii) (s t : string) :
  PyStr.count c (s +:+ t) = PyStr.count c s + PyStr.count c t.
Proof. induction s as [|a s IH]; simpl; [reflexivity | rewrite IH; lia]. Qed.

Lemma split_no_sep (sep : ascii) (s : string) :
  PyStr.count sep s = 0 -> PyStr.split sep s = [s].
Proof.
  induction s as [|a s IH]; simpl; [reflexivity|].
  destruct (Ascii.eqb a sep); [discriminate|]. intros H.
  now rewrite (IH H).
Qed.

Lemma split_app_sep (sep : ascii) (s t : string) :
  PyStr.count sep s = 0 ->
  PyStr.split sep (s +:+ String sep t) = s :: PyStr.split sep t.
Proof.
  induction s as [|a s IH]; simpl.
  - intros _. now rewrite Ascii.eqb_refl.
  - destruct (Ascii.eqb a sep); [discriminate|]. intros H.
    now rewrite (IH H).
Qed.

Lemma concat_cons_char (sep : string) (a : ascii) (w : string)
    (ws : list string) :
  String.concat sep (String a w :: ws)
  = String a (String.concat sep (w :: ws)).
Proof. destruct ws; reflexivity. Qed.

Lemma split_pieces (sep : ascii) (s : string) :
  Forall (fun piece => PyStr.count sep piece = 0) (PyStr.split sep s).
Proof.
  induction s as [|a s IH]; simpl.
  - now constructor.
  - destruct (Ascii.eqb a sep) eqn:E.
    + now constructor.
    + destruct (PyStr.split sep s) as [|w ws].
      * constructor; [|constructor]. simpl. now rewrite E.
      * inversion IH; subst. constructor; [|assumption].
        simpl. now rewrite E.
Qed.

Lemma join_split (sep : ascii) (s : string) :
  PyStr.join (String sep EmptyString) (PyStr.split sep s) = s.
Proof.
  unfold PyStr.join. induction s as [|a s IH]; [reflexivity|].
  cbn [PyStr.split]. destruct (Ascii.eqb_spec a sep) as [->|Hne].
  - pose proof (split_length sep s) as Hl.
    destruct (PyStr.split sep s) as [|w ws]; [discriminate|].
    change (String.concat (String sep EmptyString) (EmptyString :: w :: ws))
      with (String sep (String.concat (String sep EmptyString) (w :: ws))).
    now rewrite IH.
  - pose proof (split_length sep s) as Hl.
    destruct (PyStr.split sep s) as [|w ws]; [discriminate|].
    rewrite concat_cons_char. now rewrite IH.
Qed.

(** [split] and [join] undo each other: a text with k separators splits
    into k + 1 pieces, none of which holds the separator, and joining the
    pieces with the separator gives the text back. *)
Theorem split_join_roundtrip (sep : ascii) (s : string) :
  length (PyStr.split sep s) = S (PyStr.count sep s)
  /\ Forall (fun piece => PyStr.count sep piece = 0) (PyStr.split sep s)
  /\ PyStr.join (String sep EmptyString) (PyStr.split sep s) = s.
Proof.
  split; [apply split_length|]. split; [apply split_pieces|].
  apply join_split.
Qed.

(** ** Ticket numbers *)

Lemma span_digits_all_digits (s ds rest : string) :
  Re.span_digits s = (ds, rest) -> all_digits ds = true.
Proof.
  revert ds rest. induction s as [|a s IH]; simpl; intros ds rest H.
  - now inversion H.
  - destruct (PyStr.isdigit a) eqn:Hd.
    + destruct (Re.span_digits s) as [d r]. inversion H; subst.
      simpl. rewrite Hd. now apply (IH d rest).
    + now inversion H.
Qed.

Lemma findall_from_digits (fuel : nat) (s : string) :
  Forall (fun ticket => ticket <> EmptyString /\ all_digits ticket = true)
         (Re.findall_from fuel s).
Proof.
  revert s. induction fuel as [|fuel IH]; intros s; [constructor|].
  destruct s as [|a s]; [constructor|]. cbn [Re.findall_from].
  destruct (Re.match_ticket (String a s)) as [[ds rest]|] eqn:E;
    [|apply IH].
  apply match_ticket_inv in E as (s' & _ & Hsp & Hne).
  constructor; [|apply IH]. split; [exact Hne|].
  now apply (span_digits_all_digits s' ds rest).
Qed.

(** Every capture of [re.findall] is a non-empty string of decimal digits,
    so [int(ticket)] is always given a numeral. *)
Theorem findall_captures_numerals (msg : string) :
  Forall (fun ticket => ticket <> EmptyString /\ all_digits ticket = true)
         (Re.findall msg).
Proof. apply findall_from_digits. Qed.

Lemma span_digits_numeral (ds rest : string) :
  all_digits ds = true ->
  match rest with
  | EmptyString => True
  | String a _ => PyStr.isdigit a = false
  end ->
  Re.span_digits (ds +:+ rest) = (ds, rest).
Proof.
  intros Hds Hrest. induction ds as [|a ds IH]; simpl.
  - destruct rest as [|b rest]; [reflexivity|]. simpl. now rewrite Hrest.
  - simpl in Hds. apply andb_prop in Hds as [Ha Hds].
    now rewrite Ha, (IH Hds).
Qed.

Lemma string_of_uint_digits (d : Decimal.uint) :
  all_digits (NilEmpty.string_of_uint d) = true.
Proof. induction d; simpl; auto. Qed.

Lemma decimal_digits (n : N) :
  decimal n <> EmptyString /\ all_digits (decimal n) = true.
Proof.
  unfold decimal, NilZero.string_of_uint.
  destruct (N.to_uint n) as [|d|d|d|d|d|d|d|d|d|d] eqn:E;
    (split; [discriminate|]); try reflexivity;
    cbn [NilEmpty.string_of_uint all_digits];
    apply string_of_uint_digits.
Qed.

Lemma int_of_uint (d e : Decimal.uint) :
  (fix go (acc : N) (s : string) : N :=
     match s with
     | EmptyString => acc
     | String a s' => go (acc * 10 + (N_of_ascii a - 48))%N s'
     end) (DecimalPos.Unsigned.of_lu e) (NilEmpty.string_of_uint d)
  = DecimalPos.Unsigned.of_lu (Decimal.revapp d e).
Proof.
  revert e. induction d; intros e; cbn [NilEmpty.string_of_uint Decimal.revapp];
    [reflexivity| | | | | | | | | |];
    rewrite <- IHd; f_equal; cbn [DecimalPos.Unsigned.of_lu];
    change (N_of_ascii _ - 48)%N with 0%N || change (N_of_ascii _ - 48)%N with 1%N
    || change (N_of_ascii _ - 48)%N with 2%N || change (N_of_ascii _ - 48)%N with 3%N
    || change (N_of_ascii _ - 48)%N with 4%N || change (N_of_ascii _ - 48)%N with 5%N
    || change (N_of_ascii _ - 48)%N with 6%N || change (N_of_ascii _ - 48)%N with 7%N
    || change (N_of_ascii _ - 48)%N with 8%N || change (N_of_ascii _ - 48)%N with 9%N;
    lia.
Qed.

(** [int] reads back the numeral that [str] writes. *)
Lemma int_decimal (n : N) : PyStr.int (decimal n) = n.
Proof.
  unfold decimal, PyStr.int.
  assert (H : NilZero.string_of_uint (N.to_uint n)
              = NilEmpty.string_of_uint (N.to_uint n)).
  { unfold NilZero.string_of_uint.
    destruct (N.to_uint n) eqn:E; try reflexivity.
    destruct n as [|p]; [discriminate|].
    now apply DecimalPos.Unsigned.to_uint_nonnil in E. }
  rewrite H.
  change 0%N with (DecimalPos.Unsigned.of_lu Decimal.Nil) at 1.
  rewrite int_of_uint.
  change (Decimal.revapp (N.to_uint n) Decimal.Nil)
    with (Decimal.rev (N.to_uint n)).
  rewrite <- DecimalPos.Unsigned.of_uint_alt.
  apply DecimalN.Unsigned.of_to.
Qed.

Lemma length_append (s t : string) :
  String.length (s +:+ t) = String.length s + String.length t.
Proof. induction s as [|a s IH]; simpl; [reflexivity | now rewrite IH]. Qed.

Lemma findall_from_step (fuel : nat) (a : ascii) (s : string) :
  Re.findall_from (S fuel) (String a s)
  = match Re.match_ticket (String a s) with
    | Some (ds, rest) => ds :: Re.findall_from fuel rest
    | None => Re.findall_from fuel s
    end.
Proof. reflexivity. Qed.

Lemma findall_reference (ds rest : string) :
  ds <> EmptyString -> all_digits ds = true ->
  match rest with
  | EmptyString => True
  | String a _ => PyStr.isdigit a = false
  end ->
  Re.findall ("rt#" +:+ ds +:+ rest) = ds :: Re.findall rest.
Proof.
  intros Hne Hds Hrest. unfold Re.findall.
  change ("rt#" +:+ ds +:+ rest)
    with (String "r" (String "t" (String "#" (ds +:+ rest)))).
  cbn [String.length]. rewrite findall_from_step.
  assert (Hm : Re.match_ticket
                 (String "r" (String "t" (String "#" (ds +:+ rest))))
               = Some (ds, rest)).
  { unfold Re.match_ticket. rewrite (span_digits_numeral ds rest Hds Hrest).
    destruct ds; [contradiction | reflexivity]. }
  rewrite Hm. f_equal. apply findall_from_enough; [|lia].
  rewrite length_append. lia.
Qed.

(** A reference written with the numeral of n asks the tracker for ticket
    n: dispatch logs in, answers with the summary of ticket n if the lookup
    succeeds, passes over it otherwise, and goes on with the references of
    the rest of the text. *)
Theorem ticket_reference_looks_up_its_number (getuser : string)
    (world : World) (self : CreateBot) (event : Event)
    (channel : list string) (user rest : string) (n : N) :
  accepted self event channel user ("rt#" +:+ decimal n +:+ rest) ->
  match rest with
  | EmptyString => True
  | String a _ => PyStr.isdigit a = false
  end ->
  on_pubmsg getuser world self event
  = (RtConnection "create" (rt_password self)
       :: map (addressed (target event) user)
              (match from_number world n with
               | Some summary => [summary]
               | None => []
               end ++ summaries world (Re.findall rest)),
     Returned tt).
Proof.
  intros Hacc Hrest. destruct (decimal_digits n) as [Hne Hds].
  pose proof (findall_reference (decimal n) rest Hne Hds Hrest) as Hf.
  rewrite (on_pubmsg_tickets _ _ _ _ _ _ _ Hacc) by (rewrite Hf; discriminate).
  rewrite Hf. unfold summaries. cbn [omap list_omap].
  rewrite int_decimal. now destruct (from_number world n).
Qed.

Lemma ticket_reference_looks_up_its_number_witness :
  accepted atool_bot (pubmsg "bob!~bob@host" ("rt#" +:+ decimal 404 +:+ "?"))
    ["alice"] "bob" ("rt#" +:+ decimal 404 +:+ "?")
  /\ PyStr.isdigit "?" = false
  /\ on_pubmsg "nobody" atool_world atool_bot
       (pubmsg "bob!~bob@host" ("rt#" +:+ decimal 404 +:+ "?"))
     = (RtConnection "create" (rt_password atool_bot)
          :: map (addressed "#atool" "bob")
                 (match from_number atool_world 404 with
                  | Some summary => [summary]
                  | None => []
                  end ++ summaries atool_world (Re.findall "?")),
        Returned tt).
Proof.
  assert (Hacc : accepted atool_bot
                   (pubmsg "bob!~bob@host" ("rt#" +:+ decimal 404 +:+ "?"))
                   ["alice"] "bob" ("rt#" +:+ decimal 404 +:+ "?"))
    by (repeat split; vm_compute; reflexivity).
  assert (Hrest : PyStr.isdigit "?" = false) by reflexivity.
  split; [exact Hacc|]. split; [exact Hrest|].
  exact (ticket_reference_looks_up_its_number "nobody" atool_world atool_bot
           _ _ _ "?" 404%N Hacc Hrest).
Defined.

(** ** The guards of dispatch *)

Lemma own_nickname_prefix (getuser : string) :
  PyStr.startswith "create" (IRC_NICKNAME getuser) = true.
Proof. unfold IRC_NICKNAME. now destruct (String.eqb getuser "nobody"). Qed.

(** A message from a nick that starts with "create", as the bot's own
    nickname always does, is discarded: whatever its channel, text and
    arguments, dispatch performs no effect and returns. *)
Theorem bot_messages_discarded (getuser : string) (world : World)
    (self : CreateBot) (event : Event) (nick host : string) :
  source event = nick +:+ String "!" host ->
  PyStr.count "!" nick = 0 ->
  PyStr.count "!" host = 0 ->
  PyStr.startswith "create" nick = true ->
  on_pubmsg getuser world self event = ([], Returned tt)
  /\ PyStr.startswith "create" (IRC_NICKNAME getuser) = true.
Proof.
  intros Hsrc Hn Hh Hc. split; [|apply own_nickname_prefix].
  unfold on_pubmsg.
  destruct (channels self !! target event) as [channel|]; [|reflexivity].
  rewrite Hsrc, count_app. cbn [PyStr.count]. rewrite Hn, Hh.
  cbn [Ascii.eqb Bool.eqb Nat.add Nat.eqb negb].
  rewrite (split_app_sep "!" nick host Hn), (split_no_sep "!" host Hh).
  now rewrite Hc.
Qed.

Lemma bot_messages_discarded_witness :
  source {| source := "create!~create@irc"; target := "#atool";
            arguments := [] |}
  = "create" +:+ String "!" "~create@irc"
  /\ PyStr.count "!" "create" = 0
  /\ PyStr.count "!" "~create@irc" = 0
  /\ PyStr.startswith "create" "create" = true
  /\ on_pubmsg "nobody" atool_world atool_bot
       {| source := "create!~create@irc"; target := "#atool";
          arguments := [] |}
     = ([], Returned tt)
  /\ PyStr.startswith "create" (IRC_NICKNAME "nobody") = true.
Proof.
  split; [reflexivity|]. split; [reflexivity|]. split; [reflexivity|].
  split; [reflexivity|].
  exact (bot_messages_discarded "nobody" atool_world atool_bot
           {| source := "create!~create@irc"; target := "#atool";
              arguments := [] |}
           "create" "~create@irc" eq_refl eq_refl eq_refl eq_refl).
Defined.

(** A message on a joined channel, from a well-formed source that is not a
    bot, which does not carry exactly one argument fails the second
    assertion: AssertionError leaves dispatch and nothing is sent. *)
Theorem arguments_assertion (getuser : string) (world : World)
    (self : CreateBot) (event : Event) (channel : list string) :
  channels self !! target event = Some channel ->
  PyStr.count "!" (source event) = 1 ->
  PyStr.startswith "create"
    (hd EmptyString (PyStr.split "!" (source event))) = false ->
  length (arguments event) <> 1 ->
  on_pubmsg getuser world self event = ([], Raised AssertionError).
Proof.
  intros Hch Hcnt Hu Hargs. unfold on_pubmsg. rewrite Hch, Hcnt.
  cbn [Nat.eqb negb].
  destruct (split_two _ _ Hcnt) as (u & h & Hsp). rewrite Hsp in Hu |- *.
  cbn [hd] in Hu. rewrite Hu.
  destruct (arguments event) as [|msg [|msg' l]]; try reflexivity.
  now contradiction Hargs.
Qed.

Lemma arguments_assertion_witness :
  channels atool_bot
    !! target {| source := "bob!~bob@host"; target := "#atool";
                 arguments := ["create: thanks"; "again"] |}
  = Some ["alice"]
  /\ PyStr.count "!" "bob!~bob@host" = 1
  /\ PyStr.startswith "create"
       (hd EmptyString (PyStr.split "!" "bob!~bob@host")) = false
  /\ length ["create: thanks"; "again"] <> 1
  /\ on_pubmsg "nobody" atool_world atool_bot
       {| source := "bob!~bob@host"; target := "#atool";
          arguments := ["create: thanks"; "again"] |}
     = ([], Raised AssertionError).
Proof.
  assert (Hch : channels atool_bot
    !! target {| source := "bob!~bob@host"; target := "#atool";
                 arguments := ["create: thanks"; "again"] |}
    = Some ["alice"]) by (vm_compute; reflexivity).
  assert (Hl : length ["create: thanks"; "again"] <> 1)
    by (simpl; lia).
  split; [exact Hch|]. split; [reflexivity|]. split; [reflexivity|].
  split; [exact Hl|].
  exact (arguments_assertion "nobody" atool_world atool_bot
           {| source := "bob!~bob@host"; target := "#atool";
              arguments := ["create: thanks"; "again"] |}
           ["alice"] Hch eq_refl eq_refl Hl).
Defined.

(** ** Commands, for operators and for everyone *)

(** A command that is none of the five recognised ones is met with
    silence, from operators too: no effect, no error. *)
Theorem unrecognised_command_is_silent (world : World) (is_oper : bool)
    (command : string) (args : list string) (reply : Responder) :
  command <> "list" -> command <> "approve" -> command <> "reject" ->
  command <> "thanks" -> command <> "thank" ->
  handle_command world is_oper command args reply = ([], Returned tt).
Proof.
  intros Hl Ha Hr Hs Ht. unfold handle_command.
  apply String.eqb_neq in Hl, Ha, Hr, Hs, Ht.
  rewrite Hl, Ha, Hr, Hs, Ht. now destruct is_oper.
Qed.

Lemma unrecognised_command_is_silent_witness :
  "hello" <> "list" /\ "hello" <> "approve" /\ "hello" <> "reject"
  /\ "hello" <> "thanks" /\ "hello" <> "thank"
  /\ handle_command atool_world true "hello" ["there"]
       (respond "#atool" "alice")
     = ([], Returned tt).
Proof.
  assert (Hl : "hello" <> "list") by discriminate.
  assert (Ha : "hello" <> "approve") by discriminate.
  assert (Hr : "hello" <> "reject") by discriminate.
  assert (Hs : "hello" <> "thanks") by discriminate.
  assert (Ht : "hello" <> "thank") by discriminate.
  split; [exact Hl|]. split; [exact Ha|]. split; [exact Hr|].
  split; [exact Hs|]. split; [exact Ht|].
  exact (unrecognised_command_is_silent atool_world true "hello" ["there"]
           (respond "#atool" "alice") Hl Ha Hr Hs Ht).
Defined.

(** What [handle_command] does for an operator, command by command. *)
Lemma handle_command_operator (world : World) (command : string)
    (args : list string) (target user : string) :
  handle_command world true command args (respond target user)
  = if String.eqb command "list" then
      match pending_requests world with
      | WaitDone [] =>
          ([Delay "get_pending_requests" []; Wait "get_pending_requests" 5;
            addressed target user "no pending requests"], Returned tt)
      | WaitDone result =>
          (Delay "get_pending_requests" [] :: Wait "get_pending_requests" 5
             :: map (addressed target user) result, Returned tt)
      | WaitTimedOut =>
          ([Delay "get_pending_requests" []; Wait "get_pending_requests" 5;
            addressed target user
              "timed out loading list of requests, sorry!"], Returned tt)
      | WaitFailed =>
          ([Delay "get_pending_requests" []; Wait "get_pending_requests" 5],
           Raised TaskError)
      end
    else if String.eqb command "approve" then
      match args with
      | [] => ([], Raised IndexError)
      | user_name :: _ =>
          ([Delay "approve_request" [user_name];
            addressed target user
              ("approved " +:+ user_name
               +:+ ", the account is being created")], Returned tt)
      end
    else if String.eqb command "reject" then
      match args with
      | [] => ([], Raised IndexError)
      | user_name :: _ =>
          ([Delay "reject_request" [user_name];
            addressed target user
              ("rejected " +:+ user_name +:+ ", better luck next time")],
           Returned tt)
      end
    else handle_command world false command args (respond target user).
Proof.
  unfold handle_command.
  destruct (String.eqb_spec command "list") as [->|_].
  { cbn [String.eqb Ascii.eqb Bool.eqb].
    destruct (pending_requests world) as [[|request result]| |];
      try reflexivity.
    rewrite for_each_respond, !bind_perform, bind_pure.
    unfold effects, outcome, ret. cbn [fst snd]. now rewrite app_nil_r. }
  destruct (String.eqb_spec command "approve") as [->|_].
  { now destruct args. }
  destruct (String.eqb_spec command "reject") as [->|_].
  { now destruct args. }
  reflexivity.
Qed.

Lemma Forall_addressed (target user : string) (l : list string) :
  Forall (on_channel target) (map (addressed target user) l).
Proof. induction l; constructor; [reflexivity | assumption]. Qed.

Lemma handle_command_effects (world : World) (is_oper : bool)
    (command : string) (args : list string) (target user : string) :
  Forall (on_channel target)
    (effects (handle_command world is_oper command args
                (respond target user)))
  /\ (outcome (handle_command world is_oper command args
                 (respond target user)) = Returned tt
      \/ outcome (handle_command world is_oper command args
                    (respond target user)) = Raised IndexError
      \/ outcome (handle_command world is_oper command args
                    (respond target user)) = Raised TaskError).
Proof.
  assert (Hnon : Forall (on_channel target)
            (effects (handle_command world false command args
                        (respond target user)))
          /\ outcome (handle_command world false command args
                        (respond target user)) = Returned tt).
  { rewrite handle_command_non_operator.
    destruct (String.eqb command "thanks");
      [split; [repeat constructor | reflexivity]|].
    destruct (String.eqb command "thank");
      [|split; [constructor | reflexivity]].
    destruct (String.eqb (PyStr.join " " args) "you");
      split; (repeat constructor) || reflexivity. }
  destruct is_oper; [|destruct Hnon; auto].
  rewrite handle_command_operator.
  destruct (String.eqb command "list").
  { destruct (pending_requests world) as [[|request result]| |];
      unfold effects, outcome; cbn [fst snd]; split; auto;
      repeat (constructor; try exact I); try reflexivity.
    apply (Forall_addressed target user result). }
  destruct (String.eqb command "approve");
    [destruct args; unfold effects, outcome; cbn [fst snd]; split; auto;
     repeat (constructor; try exact I); reflexivity|].
  destruct (String.eqb command "reject");
    [destruct args; unfold effects, outcome; cbn [fst snd]; split; auto;
     repeat (constructor; try exact I); reflexivity|].
  destruct Hnon; auto.
Qed.

(** Dispatch only ever talks to the channel the message came from: every
    message it sends goes to [event.target], and besides that it only logs
    in to the ticket tracker or calls the task queue.  This holds for every
    event, accepted or not. *)
Theorem replies_stay_on_channel (getuser : string) (world : World)
    (self : CreateBot) (event : Event) :
  Forall (on_channel (target event))
         (effects (on_pubmsg getuser world self event)).
Proof.
  unfold on_pubmsg.
  destruct (channels self !! target event) as [channel|]; [|constructor].
  destruct (negb _); [constructor|].
  destruct (PyStr.split "!" (source event)) as [|user [|host [|x l]]];
    try constructor.
  destruct (PyStr.startswith "create" user); [constructor|].
  destruct (arguments event) as [|msg [|msg' l]]; try constructor.
  destruct (Re.findall msg) as [|ticket tickets].
  - destruct (mention_prefixed getuser msg); [|constructor].
    destruct (command_words getuser msg) as [|command args]; [constructor|].
    apply handle_command_effects.
  - rewrite bind_perform, ticket_loop_spec. unfold effects. cbn [fst].
    constructor; [exact I|]. apply Forall_addressed.
Qed.




(** For an operator, [approve name ...] and [reject name ...] submit one
    task with the first word after the command, do not wait for it, and
    confirm at once to the sender; any further word is ignored. *)
Theorem operator_approves_and_rejects (getuser : string) (world : World)
    (self : CreateBot) (event : Event) (channel : list string)
    (user msg command user_name : string) (more : list string) :
  accepted self event channel user msg ->
  existsb (String.eqb user) channel = true ->
  Re.findall msg = [] ->
  mention_prefixed getuser msg = true ->
  command_words getuser msg = command :: user_name :: more ->
  command = "approve" \/ command = "reject" ->
  on_pubmsg getuser world self event
  = ([Delay (command +:+ "_request") [user_name];
      addressed (target event) user
        (if String.eqb command "approve"
         then "approved " +:+ user_name +:+ ", the account is being created"
         else "rejected " +:+ user_name +:+ ", better luck next time")],
     Returned tt).
Proof.
  intros Hacc Hop Hno Hm Hw Hc.
  rewrite (on_pubmsg_command _ _ _ _ _ _ _ _ _ Hacc Hno Hm Hw), Hop.
  rewrite handle_command_operator. now destruct Hc as [-> | ->].
Qed.

Lemma operator_approves_and_rejects_witness :
  accepted atool_bot
    (pubmsg "alice!~alice@host" "create: reject ann at once")
    ["alice"] "alice" "create: reject ann at once"
  /\ existsb (String.eqb "alice") ["alice"] = true
  /\ Re.findall "create: reject ann at once" = []
  /\ mention_prefixed "nobody" "create: reject ann at once" = true
  /\ command_words "nobody" "create: reject ann at once"
     = "reject" :: "ann" :: ["at"; "once"]
  /\ ("reject" = "approve" \/ "reject" = "reject")
  /\ on_pubmsg "nobody" atool_world atool_bot
       (pubmsg "alice!~alice@host" "create: reject ann at once")
     = ([Delay ("reject" +:+ "_request") ["ann"];
         addressed "#atool" "alice"
           (if String.eqb "reject" "approve"
            then "approved " +:+ "ann" +:+ ", the account is being created"
            else "rejected " +:+ "ann" +:+ ", better luck next time")],
        Returned tt).
Proof.
  assert (Hacc : accepted atool_bot
                   (pubmsg "alice!~alice@host" "create: reject ann at once")
                   ["alice"] "alice" "create: reject ann at once")
    by (repeat split; vm_compute; reflexivity).
  assert (Hop : existsb (String.eqb "alice") ["alice"] = true)
    by reflexivity.
  assert (Hno : Re.findall "create: reject ann at once" = [])
    by reflexivity.
  assert (Hm : mention_prefixed "nobody" "create: reject ann at once" = true)
    by reflexivity.
  assert (Hw : command_words "nobody" "create: reject ann at once"
               = "reject" :: "ann" :: ["at"; "once"]) by reflexivity.
  assert (Hc : "reject" = "approve" \/ "reject" = "reject")
    by (right; reflexivity).
  split; [exact Hacc|]. split; [exact Hop|]. split; [exact Hno|].
  split; [exact Hm|]. split; [exact Hw|]. split; [exact Hc|].
  exact (operator_approves_and_rejects "nobody" atool_world atool_bot
           _ _ _ _ _ _ _ Hacc Hop Hno Hm Hw Hc).
Defined.

(** ** The mention prefix *)

Lemma append_assoc (s t u : string) : (s +:+ t) +:+ u = s +:+ (t +:+ u).
Proof.
  induction s as [|a s IH]; [reflexivity|].
  change (String a ((s +:+ t) +:+ u) = String a (s +:+ (t +:+ u))).
  now rewrite IH.
Qed.

Lemma prefix_append (s t : string) : String.prefix s (s +:+ t) = true.
Proof.
  induction s as [|a s IH]; [now destruct t|].
  change (String.prefix (String a s) (String a (s +:+ t)) = true).
  cbn [String.prefix]. destruct (ascii_dec a a); [exact IH | contradiction].
Qed.

Lemma drop_append (s t : string) (n : nat) :
  PyStr.drop (String.length s + n) (s +:+ t) = PyStr.drop n t.
Proof. induction s as [|a s IH]; [reflexivity | exact IH]. Qed.

Lemma mention_parse (getuser sep rest : string) :
  sep = " " \/ sep = ": " ->
  mention_prefixed getuser (IRC_NICKNAME getuser +:+ sep +:+ rest) = true
  /\ command_words getuser (IRC_NICKNAME getuser +:+ sep +:+ rest)
     = PyStr.split " " (PyStr.strip rest).
Proof.
  unfold mention_prefixed, command_words, PyStr.startswith.
  intros [-> | ->]; rewrite <- !append_assoc, !prefix_append, ?orb_true_r;
    rewrite !append_assoc, !drop_append; split; reflexivity.
Qed.

(** The two ways to address the bot, its nickname followed by a space or by
    a colon and a space, are both recognised and parse alike: the command
    words are those of the rest of the text, stripped and split at single
    spaces. *)
Theorem mention_styles_parse_alike (getuser rest : string) :
  mention_prefixed getuser (IRC_NICKNAME getuser +:+ " " +:+ rest) = true
  /\ mention_prefixed getuser (IRC_NICKNAME getuser +:+ ": " +:+ rest) = true
  /\ command_words getuser (IRC_NICKNAME getuser +:+ " " +:+ rest)
     = PyStr.split " " (PyStr.strip rest)
  /\ command_words getuser (IRC_NICKNAME getuser +:+ ": " +:+ rest)
     = PyStr.split " " (PyStr.strip rest).
Proof.
  destruct (mention_parse getuser " " rest (or_introl eq_refl)) as [H1 H2].
  destruct (mention_parse getuser ": " rest (or_intror eq_refl)) as [H3 H4].
  auto.
Qed.

Lemma rstrip_append (p w : string) :
  PyStr.rstrip w <> EmptyString ->
  PyStr.rstrip (p +:+ w) = p +:+ PyStr.rstrip w.
Proof.
  intros Hw. induction p as [|a p IH]; [reflexivity|].
  change (PyStr.rstrip (String a (p +:+ w)) = String a (p +:+ PyStr.rstrip w)).
  cbn [PyStr.rstrip]. rewrite IH.
  destruct (p +:+ PyStr.rstrip w) eqn:E; [|reflexivity].
  destruct p; [contradiction | discriminate].
Qed.

Lemma handle_thank (world : World) (is_oper : bool) (args : list string)
    (target user : string) :
  handle_command world is_oper "thank" args (respond target user)
  = ([Privmsg target
        (if String.eqb (PyStr.join " " args) "you"
         then user +:+ ": " +:+ "you're most welcome"
         else "thanks, " +:+ PyStr.join " " args +:+ "!")],
     Returned tt).
Proof.
  destruct is_oper; [rewrite handle_command_operator|];
    rewrite handle_command_non_operator;
    cbn [String.eqb Ascii.eqb Bool.eqb];
    now destruct (String.eqb (PyStr.join " " args) "you").
Qed.

(** [thank] echoes its words verbatim: whatever follows "thank " in a
    message to the bot, inner and leading spaces included, comes back as
    "thanks, <words>!" with no prefix, for operators and others alike; the
    words "you" alone get "you're most welcome". *)
Theorem thank_echoes_words (getuser : string) (world : World)
    (self : CreateBot) (event : Event) (channel : list string)
    (user words : string) :
  accepted self event channel user
    (IRC_NICKNAME getuser +:+ ": " +:+ "thank " +:+ words) ->
  Re.findall (IRC_NICKNAME getuser +:+ ": " +:+ "thank " +:+ words) = [] ->
  PyStr.rstrip words = words ->
  on_pubmsg getuser world self event
  = ([Privmsg (target event)
        (if String.eqb words "you"
         then user +:+ ": " +:+ "you're most welcome"
         else "thanks, " +:+ words +:+ "!")],
     Returned tt).
Proof.
  intros Hacc Hno Hw.
  destruct (mention_parse getuser ": " ("thank " +:+ words)
              (or_intror eq_refl)) as [Hm Hc].
  assert (Hwords : PyStr.split " " (PyStr.strip ("thank " +:+ words))
                   = "thank" :: match words with
                                | EmptyString => []
                                | _ => PyStr.split " " words
                                end).
  { destruct words as [|a words]; [reflexivity|].
    change (PyStr.strip ("thank " +:+ String a words))
      with (PyStr.rstrip ("thank " +:+ String a words)).
    rewrite rstrip_append by (rewrite Hw; discriminate). rewrite Hw.
    apply (split_app_sep " " "thank" (String a words) eq_refl). }
  rewrite Hwords in Hc.
  rewrite (on_pubmsg_command _ _ _ _ _ _ _ _ _ Hacc Hno Hm Hc), handle_thank.
  destruct words as [|a words]; [reflexivity|].
  now rewrite join_split.
Qed.

Lemma thank_echoes_words_witness :
  accepted atool_bot
    (pubmsg "bob!~bob@host"
       (IRC_NICKNAME "nobody" +:+ ": " +:+ "thank " +:+ " the  cooks"))
    ["alice"] "bob"
    (IRC_NICKNAME "nobody" +:+ ": " +:+ "thank " +:+ " the  cooks")
  /\ Re.findall
       (IRC_NICKNAME "nobody" +:+ ": " +:+ "thank " +:+ " the  cooks") = []
  /\ PyStr.rstrip " the  cooks" = " the  cooks"
  /\ on_pubmsg "nobody" atool_world atool_bot
       (pubmsg "bob!~bob@host"
          (IRC_NICKNAME "nobody" +:+ ": " +:+ "thank " +:+ " the  cooks"))
     = ([Privmsg "#atool"
           (if String.eqb " the  cooks" "you"
            then "bob" +:+ ": " +:+ "you're most welcome"
            else "thanks, " +:+ " the  cooks" +:+ "!")],
        Returned tt).
Proof.
  assert (Hacc : accepted atool_bot
    (pubmsg "bob!~bob@host"
       (IRC_NICKNAME "nobody" +:+ ": " +:+ "thank " +:+ " the  cooks"))
    ["alice"] "bob"
    (IRC_NICKNAME "nobody" +:+ ": " +:+ "thank " +:+ " the  cooks"))
    by (repeat split; vm_compute; reflexivity).
  assert (Hno : Re.findall
       (IRC_NICKNAME "nobody" +:+ ": " +:+ "thank " +:+ " the  cooks") = [])
    by (vm_compute; reflexivity).
  assert (Hw : PyStr.rstrip " the  cooks" = " the  cooks")
    by reflexivity.
  split; [exact Hacc|]. split; [exact Hno|]. split; [exact Hw|].
  exact (thank_echoes_words "nobody" atool_world atool_bot _ _ _ _
           Hacc Hno Hw).
Defined.

(** ** The relay's edges *)

(** An event whose type is none of the four registered ones has no handler:
    the relay ignores it, without effect and without error. *)
Theorem unknown_event_ignored (getuser : string) (event : CeleryEvent) :
  type event <> "ocflib.account_created" ->
  type event <> "ocflib.account_submitted" ->
  type event <> "ocflib.account_approved" ->
  type event <> "ocflib.account_rejected" ->
  process getuser event = ([], Returned tt).
Proof.
  intros Hc Hs Ha Hr. unfold process, handlers.
  rewrite !lookup_insert_ne, lookup_empty by congruence. reflexivity.
Qed.

Lemma unknown_event_ignored_witness :
  "task-succeeded" <> "ocflib.account_created"
  /\ "task-succeeded" <> "ocflib.account_submitted"
  /\ "task-succeeded" <> "ocflib.account_approved"
  /\ "task-succeeded" <> "ocflib.account_rejected"
  /\ process "nobody" {| type := "task-succeeded"; request := ann |}
     = ([], Returned tt).
Proof.
  assert (Hc : "task-succeeded" <> "ocflib.account_created")
    by discriminate.
  assert (Hs : "task-succeeded" <> "ocflib.account_submitted")
    by discriminate.
  assert (Ha : "task-succeeded" <> "ocflib.account_approved")
    by discriminate.
  assert (Hr : "task-succeeded" <> "ocflib.account_rejected")
    by discriminate.
  split; [exact Hc|]. split; [exact Hs|]. split; [exact Ha|].
  split; [exact Hr|].
  exact (unknown_event_ignored "nobody"
           {| type := "task-succeeded"; request := ann |} Hc Hs Ha Hr).
Defined.

Lemma bot_announce_relay (getuser : string) (targets : list string)
    (message : string) :
  (forall t, In t targets ->
     In t (IRC_CHANNELS getuser ++ IRC_CHANNELS_ANNOUNCE)) ->
  Forall (relay_effect getuser) (effects (bot_announce targets message)).
Proof.
  intros H. rewrite bot_announce_spec. unfold effects. cbn [fst].
  induction targets as [|t targets IH]; constructor.
  - apply H. now left.
  - apply IH. intros t' Ht'. apply H. now right.
Qed.

Lemma process_relay (getuser : string) (event : CeleryEvent) :
  Forall (relay_effect getuser) (effects (process getuser event)).
Proof.
  unfold process.
  destruct (handlers getuser !! type event) as [h|] eqn:E; [|constructor].
  apply handlers_lookup in E as [-> | [-> | [-> | ->]]];
    apply bot_announce_relay; intros t Ht; apply in_or_app; auto.
Qed.

Lemma relay_loop_effects (getuser : string) (feed : list Subscription) :
  effects (celery_listener getuser feed)
  = concat (map (fun sub => Capture :: announcements getuser sub)
                (served feed)).
Proof.
  induction feed as [|sub feed IH]; [reflexivity|].
  cbn [celery_listener served map concat].
  rewrite capture_spec. unfold returns.
  destruct (ending sub); cbn [bind].
  - destruct (celery_listener getuser feed) as [tr o] eqn:E.
    unfold effects in *. cbn [fst] in *. now rewrite IH.
  - unfold effects. cbn [fst map concat]. now rewrite app_nil_r.
Qed.

(** Whatever the event source delivers and however its subscriptions end,
    the relay does nothing but subscribe and send messages to the
    configured channels: it never joins a channel, never reaches the
    ticket tracker or the task queue, never writes elsewhere. *)
Theorem relay_writes_to_configured_channels (getuser : string)
    (feed : list Subscription) :
  Forall (relay_effect getuser) (effects (celery_listener getuser feed)).
Proof.
  rewrite relay_loop_effects.
  induction (served feed) as [|sub subs IH]; [constructor|].
  cbn [map concat]. constructor; [exact I|].
  apply Forall_app. split; [|exact IH].
  unfold announcements.
  induction (delivered sub) as [|event events IHe]; [constructor|].
  cbn [map concat]. apply Forall_app. split; [apply process_relay | exact IHe].
Qed.

(** The announcement channel #atool is among the channels the bot joins on
    welcome exactly when the bot runs as user nobody or as a user named
    atool: run by any other user, the bot announces created, approved and
    rejected accounts on a channel it has not joined. *)
Theorem announcement_channel_joined (getuser : string) :
  Forall (fun channel =>
            In channel (joined_channels (effects (on_welcome getuser))))
         IRC_CHANNELS_ANNOUNCE
  <-> getuser = "nobody" \/ getuser = "atool".
Proof.
  rewrite joined_on_welcome. unfold IRC_CHANNELS_ANNOUNCE, IRC_CHANNELS.
  destruct (String.eqb_spec getuser "nobody") as [Heq|Hne].
  - split; [now left|]. intros _.
    constructor; [|constructor]. right. left. reflexivity.
  - split.
    + intros H. inversion H as [|c l Hin _]; subst. right.
      destruct Hin as [Hin|[]].
      change ("#" +:+ getuser) with (String "#" getuser) in Hin.
      now inversion Hin.
    + intros [Heq|Heq]; [contradiction|]. rewrite Heq.
      constructor; [|constructor]. left. reflexivity.
Qed.


(** * The lab plugin *)

(** ** The order of Python text *)

Lemma str_leb_refl (s : Lab.ustr) : Lab.str_leb s s = true.
Proof.
  induction s as [|a s IH]; [reflexivity|]. simpl.
  rewrite N.eqb_refl, IH. apply orb_true_r.
Qed.

Lemma str_leb_total (s t : Lab.ustr) :
  Lab.str_leb s t = true \/ Lab.str_leb t s = true.
Proof.
  revert t. induction s as [|a s IH]; intros [|b t]; simpl; auto.
  destruct (N.ltb_spec a b); [now left|].
  destruct (N.ltb_spec b a); [now right|].
  assert (a = b) by lia. subst. rewrite N.eqb_refl. simpl. apply IH.
Qed.

Lemma str_leb_trans (s t u : Lab.ustr) :
  Lab.str_leb s t = true -> Lab.str_leb t u = true -> Lab.str_leb s u = true.
Proof.
  revert t u. induction s as [|a s IH]; intros [|b t] [|c u]; simpl;
    try (intros; reflexivity || discriminate).
  destruct (N.ltb_spec a b), (N.ltb_spec b c), (N.ltb_spec a c);
    simpl; try reflexivity; try lia;
    destruct (N.eqb_spec a b), (N.eqb_spec b c), (N.eqb_spec a c);
    simpl; try discriminate; try lia; intros; try reflexivity.
  now apply (IH t u).
Qed.

Lemma str_leb_antisym (s t : Lab.ustr) :
  Lab.str_leb s t = true -> Lab.str_leb t s = true -> s = t.
Proof.
  revert t. induction s as [|a s IH]; intros [|b t]; simpl;
    try (intros; reflexivity || discriminate).
  destruct (N.ltb_spec a b), (N.ltb_spec b a); simpl; try lia;
    try discriminate;
    destruct (N.eqb_spec a b), (N.eqb_spec b a); simpl;
    try discriminate; try lia.
  intros Hst Hts. subst. f_equal. now apply IH.
Qed.

#[local] Instance str_le_total : Total Lab.str_le.
Proof. intros s t. apply str_leb_total. Qed.

#[local] Instance str_le_trans : Transitive Lab.str_le.
Proof. intros s t u. apply str_leb_trans. Qed.

#[local] Instance str_le_antisym : AntiSymm (=) Lab.str_le.
Proof. intros s t. apply str_leb_antisym. Qed.

(** [sorted] puts a list in order and keeps its elements; as the order has
    no ties between different texts, the result depends on the elements
    only, not on the order they came in. *)
Lemma sorted_spec (l : list Lab.ustr) :
  Sorted Lab.str_le (Lab.sorted l) /\ Lab.sorted l ≡ₚ l.
Proof.
  split; [apply Sorted_merge_sort, _ | apply merge_sort_Permutation].
Qed.

Lemma sorted_unique (l k : list Lab.ustr) :
  Sorted Lab.str_le k -> k ≡ₚ l -> Lab.sorted l = k.
Proof.
  intros Hk Hp. destruct (sorted_spec l) as [Hs Hl].
  apply (Sorted_unique Lab.str_le); [exact Hs | exact Hk |].
  now rewrite Hl, Hp.
Qed.

Lemma sorted_permutation (l k : list Lab.ustr) :
  l ≡ₚ k -> Lab.sorted l = Lab.sorted k.
Proof.
  intros Hp. destruct (sorted_spec k) as [Hs Hk].
  apply sorted_unique; [exact Hs|]. now rewrite Hk, Hp.
Qed.

(** Inserting the zero-width space after the first character does not
    disturb the order of names. *)
Lemma pinged_monotone (s t : Lab.ustr) :
  Lab.str_le s t -> Lab.str_le (Lab.pinged s) (Lab.pinged t).
Proof.
  unfold Lab.str_le. destruct s as [|a s], t as [|b t]; simpl; auto.
Qed.

Lemma sorted_pinged (l : list Lab.ustr) :
  Lab.sorted (map Lab.pinged l) = map Lab.pinged (Lab.sorted l).
Proof.
  destruct (sorted_spec l) as [Hs Hl].
  apply sorted_unique.
  - apply (Sorted_fmap _ Lab.str_le Lab.str_le); [|exact Hs].
    intros s t. apply pinged_monotone.
  - now rewrite Hl.
Qed.

(** ** The staff set *)

Lemma staff_elements (users : list Lab.ustr) :
  elements (list_to_set users : gset Lab.ustr) ≡ₚ remove_dups users.
Proof.
  apply NoDup_Permutation.
  - apply NoDup_elements.
  - apply NoDup_remove_dups.
  - intros u. now rewrite elem_of_elements, elem_of_list_to_set,
      elem_of_remove_dups.
Qed.

Lemma staff_size (users : list Lab.ustr) :
  size (list_to_set users : gset Lab.ustr) = length (remove_dups users).
Proof.
  transitivity (length (elements (list_to_set users : gset Lab.ustr)));
    [reflexivity|].
  now rewrite staff_elements.
Qed.

Lemma staff_empty (users : list Lab.ustr) :
  (list_to_set users : gset Lab.ustr) = ∅ <-> users = [].
Proof.
  split; [|now intros ->].
  intros H. destruct users as [|u users]; [reflexivity|].
  assert (Hu : u ∈ (list_to_set (u :: users) : gset Lab.ustr))
    by (apply elem_of_list_to_set; left).
  rewrite H in Hu. now apply not_elem_of_empty in Hu.
Qed.

Lemma prevent_pings_names (staff : list Lab.ustr) :
  ~ In [] staff ->
  Lab.prevent_pings staff = Returned (map Lab.pinged staff).
Proof.
  induction staff as [|s staff IH]; intros H; [reflexivity|].
  cbn [Lab.prevent_pings map].
  destruct s as [|c rest]; [exfalso; apply H; now left|].
  cbn [Lab._prevent_ping Lab.pinged app].
  rewrite IH; [reflexivity|]. intros Hin. apply H. now right.
Qed.

Lemma prevent_pings_raises (staff : list Lab.ustr) :
  In [] staff -> Lab.prevent_pings staff = Raised IndexError.
Proof.
  induction staff as [|s staff IH]; intros H; [destruct H|].
  cbn [Lab.prevent_pings]. destruct s as [|c rest]; [reflexivity|].
  cbn [Lab._prevent_ping]. rewrite IH; [reflexivity|].
  destruct H as [H|H]; [discriminate | exact H].
Qed.

Lemma In_elements_staff (users : list Lab.ustr) (u : Lab.ustr) :
  In u (elements (list_to_set users : gset Lab.ustr)) <-> In u users.
Proof.
  now rewrite <- !list_elem_of_In, elem_of_elements, elem_of_list_to_set.
Qed.

(** ** who_is_in_lab *)

Lemma who_is_in_lab_returns (sessions : list Lab.Session) (total : Z) :
  ~ In [] (map Lab.user sessions) ->
  snd (Lab.who_is_in_lab sessions total) = Returned tt.
Proof.
  intros Hne. unfold Lab.who_is_in_lab.
  destruct (bool_decide _); [|reflexivity].
  rewrite prevent_pings_names
    by (rewrite In_elements_staff; exact Hne).
  reflexivity.
Qed.

(** When no session has an empty user name, [who_is_in_lab] answers once:
    "is 1 person" for a count of one and "are n people" for any other,
    then the number of distinct staff names, and, if there is any staff,
    the distinct names in the order of Python text, each with a zero-width
    space after its first character.  The order of the names is that of
    the real names, not of the altered ones. *)
Theorem who_is_in_lab_reply (sessions : list Lab.Session) (total : Z) :
  ~ In [] (map Lab.user sessions) ->
  Lab.who_is_in_lab sessions total
  = Lab.respond
      (Lab.lit "there "
       ++ (if bool_decide (total <> 1%Z)
           then Lab.lit "are " ++ Lab.str_int total ++ Lab.lit " people"
           else Lab.lit "is 1 person")
       ++ Lab.lit " in the lab, including "
       ++ Lab.str_len (length (remove_dups (map Lab.user sessions)))
       ++ Lab.lit " staff"
       ++ match sessions with
          | [] => []
          | _ :: _ =>
              Lab.lit ": "
              ++ Lab.join (Lab.lit ", ")
                   (map Lab.pinged
                      (Lab.sorted (remove_dups (map Lab.user sessions))))
          end).
Proof.
  intros Hne. unfold Lab.who_is_in_lab. rewrite staff_size.
  destruct sessions as [|session sessions].
  - reflexivity.
  - rewrite bool_decide_true
      by (rewrite staff_empty; discriminate).
    rewrite prevent_pings_names
      by (rewrite In_elements_staff; exact Hne).
    rewrite sorted_pinged, (sorted_permutation _ _ (staff_elements _)).
    reflexivity.
Qed.

Lemma who_is_in_lab_reply_witness :
  ~ In [] (map Lab.user [ {| Lab.user := Lab.lit "bob" |};
                          {| Lab.user := Lab.lit "al" |};
                          {| Lab.user := Lab.lit "bob" |} ])
  /\ Lab.who_is_in_lab [ {| Lab.user := Lab.lit "bob" |};
                         {| Lab.user := Lab.lit "al" |};
                         {| Lab.user := Lab.lit "bob" |} ] 7
     = Lab.respond
         (Lab.lit "there are 7 people in the lab, including 2 staff: a"
          ++ [Lab.zero_width_space] ++ Lab.lit "l, b"
          ++ [Lab.zero_width_space] ++ Lab.lit "ob").
Proof.
  assert (Hne : ~ In [] (map Lab.user [ {| Lab.user := Lab.lit "bob" |};
                                        {| Lab.user := Lab.lit "al" |};
                                        {| Lab.user := Lab.lit "bob" |} ]))
    by (intros [H|[H|[H|[]]]]; discriminate).
  split; [exact Hne|].
  rewrite (who_is_in_lab_reply _ 7%Z Hne). vm_compute. reflexivity.
Defined.

(** A session with an empty user name makes [who_is_in_lab] fail: it raises
    IndexError and answers nothing; and that is the only way it fails. *)
Theorem who_is_in_lab_raises (sessions : list Lab.Session) (total : Z) :
  In [] (map Lab.user sessions)
  <-> Lab.who_is_in_lab sessions total = ([], Raised IndexError).
Proof.
  split.
  - intros H. unfold Lab.who_is_in_lab.
    rewrite bool_decide_true
      by (rewrite staff_empty; intros E; rewrite E in H; destruct H).
    rewrite prevent_pings_raises; [reflexivity|].
    now rewrite In_elements_staff.
  - intros H.
    destruct (decide ([] ∈ map Lab.user sessions)) as [Hin|Hne];
      [now apply list_elem_of_In|].
    rewrite <- list_elem_of_In.
    rewrite list_elem_of_In in Hne.
    pose proof (who_is_in_lab_returns _ total Hne) as Hret.
    rewrite H in Hret. discriminate.
Qed.



(** ** in_lab *)

Lemma in_lab_loop_spec (username : Lab.ustr) (sessions : list Lab.Session) :
  Lab.in_lab_loop username sessions
  = Lab.respond
      (username
       ++ Lab.lit (if bool_decide (username ∈ map Lab.user sessions)
                   then " is in the lab" else " is not in the lab")).
Proof.
  induction sessions as [|session sessions IH].
  - cbn [Lab.in_lab_loop map].
    now rewrite bool_decide_false by apply not_elem_of_nil.
  - cbn [Lab.in_lab_loop map].
    destruct (bool_decide_reflect (username = Lab.user session)) as [E|E].
    + rewrite bool_decide_true; [reflexivity | rewrite E; left].
    + rewrite IH.
      rewrite (bool_decide_ext (username ∈ map Lab.user sessions)
                 (username ∈ Lab.user session :: map Lab.user sessions));
        [reflexivity|].
      rewrite elem_of_cons. tauto.
Qed.

(** [in_lab] answers exactly once and never fails: "is in the lab" when
    some session belongs to the stripped name, however many do, and "is not
    in the lab" otherwise, when there is no session at all too. *)
Theorem in_lab_answers_once (sessions : list Lab.Session)
    (group1 : Lab.ustr) :
  Lab.in_lab sessions group1
  = ([Lab.strip group1
      ++ Lab.lit (if bool_decide
                       (Lab.strip group1 ∈ map Lab.user sessions)
                  then " is in the lab" else " is not in the lab")],
     Returned tt).
Proof. unfold Lab.in_lab. apply in_lab_loop_spec. Qed.

Lemma lstrip_letters (s : Lab.ustr) :
  Forall Lab.lowercase s -> Lab.lstrip s = s.
Proof.
  intros H. destruct H as [|c s [Hlo Hhi] _]; [reflexivity|].
  cbn [Lab.lstrip]. replace (Lab.isspace c) with false; [reflexivity|].
  unfold Lab.isspace. symmetry.
  repeat (apply orb_false_intro); try apply andb_false_iff;
    rewrite ?N.leb_gt, ?N.eqb_neq; lia.
Qed.

Lemma rstrip_letters (s : Lab.ustr) :
  Forall Lab.lowercase s -> Lab.rstrip s = s.
Proof.
  induction 1 as [|c s [Hlo Hhi] Hs IH]; [reflexivity|].
  cbn [Lab.rstrip]. rewrite IH. destruct s; [|reflexivity].
  replace (Lab.isspace c) with false; [reflexivity|].
  unfold Lab.isspace. symmetry.
  repeat (apply orb_false_intro); try apply andb_false_iff;
    rewrite ?N.leb_gt, ?N.eqb_neq; lia.
Qed.

(** The listener's pattern captures letters a to z only; on such a name
    [strip] changes nothing, so [in_lab] looks up and names the captured
    text itself. *)
Theorem in_lab_captured_name (sessions : list Lab.Session)
    (group1 : Lab.ustr) :
  Forall Lab.lowercase group1 ->
  Lab.in_lab sessions group1
  = ([group1
      ++ Lab.lit (if bool_decide (group1 ∈ map Lab.user sessions)
                  then " is in the lab" else " is not in the lab")],
     Returned tt).
Proof.
  intros H. unfold Lab.in_lab. rewrite in_lab_loop_spec. unfold Lab.strip.
  now rewrite (lstrip_letters _ H), (rstrip_letters _ H).
Qed.

Lemma in_lab_captured_name_witness :
  Forall Lab.lowercase (Lab.lit "bob")
  /\ Lab.in_lab [ {| Lab.user := Lab.lit "al" |};
                  {| Lab.user := Lab.lit "bob" |};
                  {| Lab.user := Lab.lit "bob" |} ] (Lab.lit "bob")
     = ([Lab.lit "bob"
         ++ Lab.lit (if bool_decide
                          (Lab.lit "bob"
                           ∈ map Lab.user
                               [ {| Lab.user := Lab.lit "al" |};
                                 {| Lab.user := Lab.lit "bob" |};
                                 {| Lab.user := Lab.lit "bob" |} ])
                     then " is in the lab" else " is not in the lab")],
        Returned tt).
Proof.
  assert (H : Forall Lab.lowercase (Lab.lit "bob"))
    by (repeat constructor; unfold Lab.lowercase; simpl; lia).
  split; [exact H|].
  exact (in_lab_captured_name _ _ H).
Defined.
